(** * MCP tool execution status protocol

  A shallow embedding of the two halves of the protocol:

  - the orchestrator [useMcpToolTool] (extension side), which validates a
    tool-use block, asks for approval, calls the MCP hub and posts
    [mcpExecutionStatus] messages to the webview;
  - the projector, the [onMessage] handler of the [McpExecution] React
    component (webview side), which folds those messages into its state.

  Collaborators that live outside the two source files ([JSON.parse],
  [JSON.stringify], [formatResponse], [askApproval], the MCP hub, the zod
  schema) are fields of an environment record or section variables. *)

From Stdlib Require Import String Ascii List ZArith Bool Lia.
From Stdlib Require Import DecimalString DecimalZ.
Import ListNotations.
Local Open Scope string_scope.

(** ** JavaScript values and primitives *)

Module Js.

(** ["\n"] *)
Definition LF : string := String (ascii_of_nat 10) EmptyString.

(** Truthiness of a [string | undefined]: [undefined] and the empty string
    are falsy. *)
Definition truthy (x : option string) : bool :=
  match x with
  | Some (String _ _) => true
  | _ => false
  end.

(** TypeScript narrowing after [if (!x) return]: the string, when truthy. *)
Definition nonEmpty (x : option string) : option string :=
  match x with
  | Some (String c s) => Some (String c s)
  | _ => None
  end.

(** [Boolean] used as a filter predicate on strings. *)
Definition Boolean (s : string) : bool :=
  match s with
  | EmptyString => false
  | String _ _ => true
  end.

(** [a || b] on a [string | undefined] with a string default. *)
Definition or_else (x : option string) (d : string) : string :=
  match nonEmpty x with
  | Some s => s
  | None => d
  end.

(** [Array.prototype.join]. *)
Definition join (sep : string) (l : list string) : string :=
  String.concat sep l.

(** [Number.prototype.toString] on an integral number (a millisecond
    timestamp): its decimal digits, with a leading minus sign below zero.
    JavaScript prints this form for integers of magnitude below 10^21,
    far above any timestamp. *)
Definition toString (n : Z) : string :=
  NilZero.string_of_int (Z.to_int n).

Local Unset Elimination Schemes.

(** Parsed JSON documents.  Property lists keep the enumeration order of
    the object's own properties.  Numbers are kept to the integers: the
    code below never computes with one, it only hands documents on. *)
Inductive Json : Type :=
| JNull
| JBool (b : bool)
| JNumber (n : Z)
| JString (s : string)
| JArray (items : list Json)
| JObject (props : list (string * Json)).

Local Set Elimination Schemes.

(** An object literal whose [undefined]-valued properties are skipped, as
    [JSON.stringify] skips them. *)
Fixpoint literal (props : list (string * option Json)) : list (string * Json) :=
  match props with
  | [] => []
  | (k, Some v) :: rest => (k, v) :: literal rest
  | (_, None) :: rest => literal rest
  end.

Definition optString (x : option string) : option Json :=
  option_map JString x.

(** [const { [k]: _, ...rest } = o]: the own properties of [o] other than
    [k], in their order. *)
Definition omit (k : string) (o : list (string * Json)) : list (string * Json) :=
  filter (fun kv => negb (String.eqb (fst kv) k)) o.

End Js.

(** ** A reference [JSON.stringify]

  The theorems below hold for any serializer; this one instantiates the
  environment in the worked examples.  It follows ECMA-262
  [SerializeJSONProperty] on the documents of [Js.Json]: [space = 0] gives
  the compact form, [space = n] indents nested levels by [n] blanks. *)

Module JSON.
Import Js.

Definition hexDigit (n : nat) : ascii :=
  match n with
  | 0 => "0" | 1 => "1" | 2 => "2" | 3 => "3" | 4 => "4"
  | 5 => "5" | 6 => "6" | 7 => "7" | 8 => "8" | 9 => "9"
  | 10 => "a" | 11 => "b" | 12 => "c" | 13 => "d" | 14 => "e"
  | _ => "f"
  end%char.

(** [QuoteJSONString] on one code unit. *)
Definition quoteChar (c : ascii) : string :=
  let n := nat_of_ascii c in
  if Nat.eqb n 8 then "\b"
  else if Nat.eqb n 9 then "\t"
  else if Nat.eqb n 10 then "\n"
  else if Nat.eqb n 12 then "\f"
  else if Nat.eqb n 13 then "\r"
  else if Nat.eqb n 34 then "\" ++ String c EmptyString
  else if Nat.eqb n 92 then "\\"
  else if Nat.ltb n 32 then
    "\u00" ++ String (hexDigit (n / 16)) (String (hexDigit (n mod 16)) EmptyString)
  else String c EmptyString.

Fixpoint quoteBody (s : string) : string :=
  match s with
  | EmptyString => EmptyString
  | String c rest => quoteChar c ++ quoteBody rest
  end.

Definition dquote : string := String (ascii_of_nat 34) EmptyString.

Definition quote (s : string) : string := dquote ++ quoteBody s ++ dquote.

Fixpoint blanks (n : nat) : string :=
  match n with
  | O => EmptyString
  | S k => String " " (blanks k)
  end.

(** [indent] is the current indentation, [gap] the unit added per level. *)
Fixpoint serialize (gap indent : string) (v : Json) : string :=
  let stepback := indent in
  let indent' := indent ++ gap in
  let wrap (l r : string) (parts : list string) : string :=
    match parts with
    | [] => l ++ r
    | _ =>
        if Boolean gap
        then l ++ LF ++ indent' ++ join ("," ++ LF ++ indent') parts
               ++ LF ++ stepback ++ r
        else l ++ join "," parts ++ r
    end in
  match v with
  | JNull => "null"
  | JBool true => "true"
  | JBool false => "false"
  | JNumber n => toString n
  | JString s => quote s
  | JArray items => wrap "[" "]" (map (serialize gap indent') items)
  | JObject props =>
      wrap "{" "}"
        (map (fun kv =>
                quote (fst kv) ++ (if Boolean gap then ": " else ":")
                  ++ serialize gap indent' (snd kv))
             props)
  end.

Definition stringify (v : Json) (space : nat) : string :=
  serialize (blanks (Nat.min space 10)) EmptyString v.

End JSON.

(** ** The wire record

    [McpExecutionStatus] as the orchestrator builds it and the projector
    reads it: a [status] tag and the optional fields of the four variants. *)

Module Schema.
Import Js.

Inductive Status : Type := Started | Output | Completed | Error.

Definition statusTag (s : Status) : string :=
  match s with
  | Started => "started"
  | Output => "output"
  | Completed => "completed"
  | Error => "error"
  end.

Record McpExecutionStatus : Type := mkStatus {
  executionId : string;
  status : Status;
  serverName : option string;
  toolName : option string;
  response : option string;
  error : option string
}.

(** The status as the object literal handed to [JSON.stringify]. *)
Definition toJson (s : McpExecutionStatus) : Json :=
  JObject (literal
    [ ("executionId", Some (JString (executionId s)));
      ("status", Some (JString (statusTag (status s))));
      ("serverName", optString (serverName s));
      ("toolName", optString (toolName s));
      ("response", optString (response s));
      ("error", optString (error s)) ]).

(** [ExtensionMessage], restricted to the two fields used here. *)
Record ExtensionMessage : Type := mkMessage {
  type : string;
  text : option string
}.

(** [ClineAskUseMcpServer] for a tool use. *)
Record ClineAskUseMcpServer : Type := mkAsk {
  ask_type : string;
  ask_serverName : option string;
  ask_toolName : option string;
  ask_arguments : option string
}.

Definition askToJson (a : ClineAskUseMcpServer) : Json :=
  JObject (literal
    [ ("type", Some (JString (ask_type a)));
      ("serverName", optString (ask_serverName a));
      ("toolName", optString (ask_toolName a));
      ("arguments", optString (ask_arguments a)) ]).

End Schema.

(** ** The orchestrator: [useMcpToolTool] *)

Module Orchestrator.
Import Js Schema.

(** A thrown JavaScript value, kept as its message. *)
Definition JsError : Type := string.

(** The items of [toolResult.content]: [text], [resource], and any other
    kind (an image, say), of which only the tag is kept. *)
Inductive ContentItem : Type :=
| TextItem (text : string)
| ResourceItem (resource : list (string * Json))
| OtherItem (kind : string).

(** [content] is optional because the source guards it with
    [toolResult.content && ...]; an absent [isError] counts as [false]. *)
Record McpToolCallResponse : Type := mkResponse {
  content : option (list ContentItem);
  isError : bool
}.

(** The promise returned by [callTool] settles with a response (possibly
    [undefined]) or rejects. *)
Inductive CallOutcome : Type :=
| Resolves (r : option McpToolCallResponse)
| Rejects (e : JsError).

Record McpHub : Type := mkHub {
  callTool : string -> string -> option Json -> CallOutcome
}.

Record ClineProvider : Type := mkProvider {
  getMcpHub : option McpHub
}.

(** [cline.providerRef] is a [WeakRef]; the function dereferences it twice
    (before posting [started], then for the call).  Once the target is
    collected every later [deref] is [undefined], which leaves three
    histories. *)
Inductive WeakRef : Type :=
| Collected
| CollectedBeforeCall (p : ClineProvider)
| Live (p : ClineProvider).

Definition derefForPost (r : WeakRef) : option ClineProvider :=
  match r with
  | Collected => None
  | CollectedBeforeCall p | Live p => Some p
  end.

Definition derefForCall (r : WeakRef) : option ClineProvider :=
  match r with
  | Live p => Some p
  | Collected | CollectedBeforeCall _ => None
  end.

Record ToolParams : Type := mkParams {
  server_name : option string;
  tool_name : option string;
  arguments : option string
}.

Record ToolUse : Type := mkToolUse {
  params : ToolParams;
  partial : bool
}.

(** The fields of [Task] the function reads or writes. *)
Record Task : Type := mkTask {
  consecutiveMistakeCount : nat;
  lastMessageTs : option Z;
  providerRef : WeakRef
}.

(** What the surroundings answer during one run. *)
Record Env : Type := mkEnv {
  removeClosingTag : string -> option string -> string;
  askApproval : string -> string -> bool;
  (** [None] when [JSON.parse] throws *)
  JSON_parse : string -> option Json;
  (** [JSON.stringify(v, null, space)] *)
  JSON_stringify : Json -> nat -> string;
  Date_now : Z;
  (** the value of [cline.sayAndCreateMissingParamError(tool, param)] *)
  missingParamError : string -> string -> string;
  (** [formatResponse] *)
  formatResponse_toolError : string -> string;
  formatResponse_invalidMcpToolArgumentError : string -> string -> string;
  formatResponse_toolResult : string -> string
}.

(** Calls that leave the function, in the order they are made. *)
Inductive Effect : Type :=
| Ask (kind text : string) (isPartial : bool)
| AskApproval (kind text : string)
| Say (kind : string) (text : option string)
| RecordToolError (tool : string)
| SayAndCreateMissingParamError (tool param : string)
| PostMessageToWebview (m : ExtensionMessage)
| CallTool (server tool : string) (args : option Json)
| PushToolResult (content : string)
| HandleError (action : string) (e : JsError).

(** *** The monad of the function body: task state, a trace of effects,
    and exceptions. *)

Inductive Completion (A : Type) : Type :=
| Normal (a : A)
| Throw (e : JsError).
Arguments Normal {A} a.
Arguments Throw {A} e.

Definition M (A : Type) : Type := Task -> Completion A * Task * list Effect.

Definition ret {A} (a : A) : M A := fun t => (Normal a, t, []).

Definition bind {A B} (m : M A) (k : A -> M B) : M B :=
  fun t =>
    match m t with
    | (Normal a, t1, l1) =>
        let '(r, t2, l2) := k a t1 in (r, t2, (l1 ++ l2)%list)
    | (Throw e, t1, l1) => (Throw e, t1, l1)
    end.

Definition tryCatch {A} (m : M A) (handler : JsError -> M A) : M A :=
  fun t =>
    match m t with
    | (Normal a, t1, l1) => (Normal a, t1, l1)
    | (Throw e, t1, l1) =>
        let '(r, t2, l2) := handler e t1 in (r, t2, (l1 ++ l2)%list)
    end.

Declare Scope orch_scope.
Delimit Scope orch_scope with orch.
Notation "x <- c1 ;; c2" := (bind c1 (fun x => c2))
  (at level 61, c1 at next level, right associativity) : orch_scope.
Notation "c1 ;; c2" := (bind c1 (fun _ => c2))
  (at level 61, right associativity) : orch_scope.
Local Open Scope orch_scope.

Definition emit (e : Effect) : M unit := fun t => (Normal tt, t, [e]).

Definition throw {A} (e : JsError) : M A := fun t => (Throw e, t, []).

Definition getTask : M Task := fun t => (Normal t, t, []).

Definition setMistakeCount (n : nat) : M unit :=
  fun t => (Normal tt,
            mkTask n (lastMessageTs t) (providerRef t),
            []).

(** [cline.consecutiveMistakeCount++] *)
Definition incrementMistakeCount : M unit :=
  t <- getTask ;; setMistakeCount (S (consecutiveMistakeCount t)).

Definition say (kind : string) (text : option string) : M unit :=
  emit (Say kind text).

Definition recordToolError (tool : string) : M unit :=
  emit (RecordToolError tool).

Definition pushToolResult (content : string) : M unit :=
  emit (PushToolResult content).

Definition sayAndCreateMissingParamError (env : Env) (tool param : string)
  : M string :=
  emit (SayAndCreateMissingParamError tool param) ;;
  ret (missingParamError env tool param).

Definition requestApproval (env : Env) (kind text : string) : M bool :=
  emit (AskApproval kind text) ;;
  ret (askApproval env kind text).

(** [clineProvider?.postMessageToWebview(m)] *)
Definition postMessageToWebview (clineProvider : option ClineProvider)
    (m : ExtensionMessage) : M unit :=
  match clineProvider with
  | Some _ => emit (PostMessageToWebview m)
  | None => ret tt
  end.

(** [cline.providerRef.deref()?.getMcpHub()?.callTool(server, tool, args)] *)
Definition callToolViaHub (server tool : string) (args : option Json)
  : M (option McpToolCallResponse) :=
  t <- getTask ;;
  match derefForCall (providerRef t) with
  | None => ret None
  | Some provider =>
      match getMcpHub provider with
      | None => ret None
      | Some hub =>
          emit (CallTool server tool args) ;;
          match callTool hub server tool args with
          | Resolves r => ret r
          | Rejects e => throw e
          end
      end
  end.

(** [{ type: "mcpExecutionStatus", text: JSON.stringify(status) }] *)
Definition statusMessage (env : Env) (s : McpExecutionStatus) : ExtensionMessage :=
  mkMessage "mcpExecutionStatus" (Some (JSON_stringify env (toJson s) 0)).

(** [cline.lastMessageTs?.toString() ?? Date.now().toString()] *)
Definition mintExecutionId (lastMessageTs : option Z) (now : Z) : string :=
  match lastMessageTs with
  | Some ts => toString ts
  | None => toString now
  end.

(** The callback of [toolResult.content.map]. *)
Definition itemText (env : Env) (item : ContentItem) : string :=
  match item with
  | TextItem text => text
  | ResourceItem resource =>
      let rest := omit "blob" resource in
      JSON_stringify env (JObject rest) 2
  | OtherItem _ => EmptyString
  end.

(** [content.map(...).filter(Boolean).join("\n\n")] *)
Definition outputTextOf (env : Env) (content : list ContentItem) : string :=
  join (LF ++ LF) (filter Boolean (map (itemText env) content)).

(** The part of the function after approval: lines 78-163. *)
Definition executeTool (env : Env) (executionId server_name tool_name : string)
    (parsedArguments : option Json) : M unit :=
  say "mcp_server_request_started" None ;;
  (* Send started status *)
  cline <- getTask ;;
  let clineProvider := derefForPost (providerRef cline) in
  let startedStatus :=
    mkStatus executionId Started (Some server_name) (Some tool_name) None None in
  postMessageToWebview clineProvider (statusMessage env startedStatus) ;;
  toolResult <- callToolViaHub server_name tool_name parsedArguments ;;
  (* Process the result *)
  toolResultPretty <-
    match toolResult with
    | Some toolResult =>
        (* Send output status if there's content *)
        toolResultPretty <-
          match content toolResult with
          | Some (item :: items) =>
              let outputText := outputTextOf env (item :: items) in
              if Boolean outputText then
                let outputStatus :=
                  mkStatus executionId Output None None (Some outputText) None in
                postMessageToWebview clineProvider (statusMessage env outputStatus) ;;
                ret ((if isError toolResult then "Error:" ++ LF else EmptyString)
                       ++ outputText)
              else ret "(No response)"
          | _ => ret "(No response)"
          end ;;
        (* Send completed or error status *)
        let completedStatus :=
          mkStatus executionId
            (if isError toolResult then Error else Completed)
            None None
            (Some toolResultPretty)
            (if isError toolResult then Some "Error executing MCP tool" else None) in
        postMessageToWebview clineProvider (statusMessage env completedStatus) ;;
        ret toolResultPretty
    | None =>
        (* Send error status if no result *)
        let errorStatus :=
          mkStatus executionId Error None None None
            (Some "No response from MCP server") in
        postMessageToWebview clineProvider (statusMessage env errorStatus) ;;
        ret "(No response)"
    end ;;
  say "mcp_server_response" (Some toolResultPretty) ;;
  pushToolResult (formatResponse_toolResult env toolResultPretty).

(** Lines 44-60, the inner [try]: [Some parsedArguments] when decoding
    goes through ([parsedArguments] stays [undefined] without arguments),
    [None] when [JSON.parse] throws. *)
Definition parseArguments (env : Env) (mcp_arguments : option string)
  : option (option Json) :=
  match nonEmpty mcp_arguments with
  | Some a => option_map Some (JSON_parse env a)
  | None => Some None
  end.

(** Lines 64-69. *)
Definition completeMessageOf (env : Env) (server_name tool_name : string)
    (mcp_arguments : option string) : string :=
  JSON_stringify env
    (askToJson
       (mkAsk "use_mcp_tool" (Some server_name) (Some tool_name) mcp_arguments))
    0.

Definition useMcpToolTool (env : Env) (block : ToolUse) : M unit :=
  let server_name := server_name (params block) in
  let tool_name := tool_name (params block) in
  let mcp_arguments := arguments (params block) in
  tryCatch
    (if partial block then
       let partialMessage :=
         JSON_stringify env
           (askToJson
              (mkAsk "use_mcp_tool"
                 (Some (removeClosingTag env "server_name" server_name))
                 (Some (removeClosingTag env "tool_name" tool_name))
                 (Some (removeClosingTag env "arguments" mcp_arguments)))) 0 in
       emit (Ask "use_mcp_server" partialMessage true)
     else
       match nonEmpty server_name with
       | None =>
           incrementMistakeCount ;;
           recordToolError "use_mcp_tool" ;;
           e <- sayAndCreateMissingParamError env "use_mcp_tool" "server_name" ;;
           pushToolResult e
       | Some server_name =>
       match nonEmpty tool_name with
       | None =>
           incrementMistakeCount ;;
           recordToolError "use_mcp_tool" ;;
           e <- sayAndCreateMissingParamError env "use_mcp_tool" "tool_name" ;;
           pushToolResult e
       | Some tool_name =>
       match parseArguments env mcp_arguments with
       | None =>
           incrementMistakeCount ;;
           recordToolError "use_mcp_tool" ;;
           say "error"
             (Some ("Roo tried to use " ++ tool_name
                      ++ " with an invalid JSON argument. Retrying...")) ;;
           pushToolResult
             (formatResponse_toolError env
                (formatResponse_invalidMcpToolArgumentError env server_name tool_name))
       | Some parsedArguments =>
           setMistakeCount 0 ;;
           let completeMessage :=
             completeMessageOf env server_name tool_name mcp_arguments in
           cline <- getTask ;;
           let executionId :=
             mintExecutionId (lastMessageTs cline) (Date_now env) in
           didApprove <- requestApproval env "use_mcp_server" completeMessage ;;
           if negb didApprove then ret tt
           else executeTool env executionId server_name tool_name parsedArguments
       end
       end
       end)
    (fun error => emit (HandleError "executing MCP tool" error)).

(** One invocation: the final task state and the trace of effects. *)
Definition run (env : Env) (cline : Task) (block : ToolUse)
  : Completion unit * Task * list Effect :=
  useMcpToolTool env block cline.

Definition traceOf (env : Env) (cline : Task) (block : ToolUse) : list Effect :=
  snd (run env cline block).

(** The messages posted to the webview, in order. *)
Fixpoint posted (l : list Effect) : list ExtensionMessage :=
  match l with
  | [] => []
  | PostMessageToWebview m :: rest => m :: posted rest
  | _ :: rest => posted rest
  end.

(** The calls made on the MCP hub, in order. *)
Fixpoint remoteCalls (l : list Effect) : list (string * string * option Json) :=
  match l with
  | [] => []
  | CallTool s t a :: rest => (s, t, a) :: remoteCalls rest
  | _ :: rest => remoteCalls rest
  end.

(** *** Vocabulary for the statements *)

(** The value of the optional chain on lines 94-97: what the remote call
    hands back, [Resolves None] when a link of the chain is [undefined]. *)
Definition remoteOutcome (cline : Task) (server tool : string)
    (args : option Json) : CallOutcome :=
  match derefForCall (providerRef cline) with
  | None => Resolves None
  | Some provider =>
      match getMcpHub provider with
      | None => Resolves None
      | Some hub => callTool hub server tool args
      end
  end.

(** The hub the call goes to, when the chain reaches one. *)
Definition hubOf (cline : Task) : option McpHub :=
  match derefForCall (providerRef cline) with
  | Some provider => getMcpHub provider
  | None => None
  end.

(** What [clineProvider?.postMessageToWebview(m)] adds to the trace. *)
Definition postIfReachable (cline : Task) (m : ExtensionMessage) : list Effect :=
  match derefForPost (providerRef cline) with
  | Some _ => [PostMessageToWebview m]
  | None => []
  end.

(** A complete block naming [server] and [tool], whose arguments decode to
    [args], and on which the approval collaborator answers [decision]. *)
Definition Decided (env : Env) (block : ToolUse) (server tool : string)
    (args : option Json) (decision : bool) : Prop :=
  partial block = false
  /\ nonEmpty (server_name (params block)) = Some server
  /\ nonEmpty (tool_name (params block)) = Some tool
  /\ parseArguments env (arguments (params block)) = Some args
  /\ askApproval env "use_mcp_server"
       (completeMessageOf env server tool (arguments (params block)))
     = decision.

Definition Approved env block server tool args : Prop :=
  Decided env block server tool args true.

Definition Declined env block server tool args : Prop :=
  Decided env block server tool args false.

(** [cline] after [cline.consecutiveMistakeCount = 0]. *)
Definition resetTask (cline : Task) : Task :=
  mkTask 0 (lastMessageTs cline) (providerRef cline).

(** [cline] after [cline.consecutiveMistakeCount++]. *)
Definition mistakenTask (cline : Task) : Task :=
  mkTask (S (consecutiveMistakeCount cline)) (lastMessageTs cline)
    (providerRef cline).

(** The id an invocation on [cline] is given. *)
Definition executionIdOf (env : Env) (cline : Task) : string :=
  mintExecutionId (lastMessageTs cline) (Date_now env).

(** The timestamp the id is printed from. *)
Definition stampOf (lastMessageTs : option Z) (now : Z) : Z :=
  match lastMessageTs with
  | Some ts => ts
  | None => now
  end.

Definition contentItems (r : McpToolCallResponse) : list ContentItem :=
  match content r with
  | Some items => items
  | None => []
  end.

Definition outputText (env : Env) (r : McpToolCallResponse) : string :=
  outputTextOf env (contentItems r).

Definition errorPrefix (failed : bool) : string :=
  if failed then "Error:" ++ LF else EmptyString.

(** The text handed to [cline.say] and [pushToolResult] for a result. *)
Definition prettyOf (env : Env) (r : McpToolCallResponse) : string :=
  if Boolean (outputText env r)
  then errorPrefix (isError r) ++ outputText env r
  else "(No response)".

(** The terminal event for a result. *)
Definition terminalEvent (env : Env) (id : string) (r : McpToolCallResponse)
  : McpExecutionStatus :=
  mkStatus id (if isError r then Error else Completed) None None
    (Some (prettyOf env r))
    (if isError r then Some "Error executing MCP tool" else None).

(** The status events posted for a result, after [started]. *)
Definition resultEvents (env : Env) (id : string) (r : McpToolCallResponse)
  : list McpExecutionStatus :=
  if Boolean (outputText env r)
  then [ mkStatus id Output None None (Some (outputText env r)) None;
         terminalEvent env id r ]
  else [ terminalEvent env id r ].

(** The four events of the protocol, as the function fills them in. *)
Definition startedEvent (id server tool : string) : McpExecutionStatus :=
  mkStatus id Started (Some server) (Some tool) None None.

Definition outputEvent (id chunk : string) : McpExecutionStatus :=
  mkStatus id Output None None (Some chunk) None.

Definition completedEvent (id final : string) : McpExecutionStatus :=
  mkStatus id Completed None None (Some final) None.

Definition errorEvent (id : string) (resp : option string) (message : string)
  : McpExecutionStatus :=
  mkStatus id Error None None resp (Some message).

Definition isTerminal (s : McpExecutionStatus) : bool :=
  match status s with
  | Completed | Error => true
  | Started | Output => false
  end.

(** The report for a call without result, as the protocol words it: after
    [started], one terminal event, an [error] carrying [message] (and
    possibly a response). *)
Definition NoResultReport (env : Env) (cline : Task) (block : ToolUse)
    (server tool message : string) : Prop :=
  exists resp,
    posted (traceOf env cline block)
    = map (statusMessage env)
        [ startedEvent (executionIdOf env cline) server tool;
          errorEvent (executionIdOf env cline) resp message ].

(** Joining as the protocol describes it: empty items are skipped and a
    blank line stands between two consecutive items that are kept. *)
Fixpoint joinNonEmpty (items : list string) : string :=
  match items with
  | [] => EmptyString
  | item :: rest =>
      if Boolean item then
        let tail := joinNonEmpty rest in
        if Boolean tail then item ++ LF ++ LF ++ tail else item
      else joinNonEmpty rest
  end.

(** A resource item without its [blob] property; other items unchanged. *)
Definition stripBlob (item : ContentItem) : ContentItem :=
  match item with
  | ResourceItem resource => ResourceItem (omit "blob" resource)
  | other => other
  end.

Definition stripBlobs (r : McpToolCallResponse) : McpToolCallResponse :=
  mkResponse (option_map (map stripBlob) (content r)) (isError r).

End Orchestrator.

(** ** The projector: the [onMessage] handler of [McpExecution] *)

Module Projector.
Import Js.

(** The props the handler and the initial state depend on. *)
Record Props : Type := mkProps {
  executionId : string;
  text : option string;
  initialServerName : option string;
  initialToolName : option string;
  isArguments : bool
}.

(** The [useState] cells the handler touches. *)
Record State : Type := mkState {
  status : option Schema.McpExecutionStatus;
  responseText : string;
  argumentsText : string;
  serverName : option string;
  toolName : option string
}.

(** The initial values given to [useState]. *)
Definition initialState (p : Props) : State :=
  mkState None
    (or_else (text p) EmptyString)
    (or_else (text p) EmptyString)
    (initialServerName p)
    (initialToolName p).

Definition setStatus (v : option Schema.McpExecutionStatus) (st : State) : State :=
  mkState v (responseText st) (argumentsText st) (serverName st) (toolName st).

(** [setResponseText] with an updater function; a plain value [v] is the
    constant updater. *)
Definition setResponseText (f : string -> string) (st : State) : State :=
  mkState (status st) (f (responseText st)) (argumentsText st)
    (serverName st) (toolName st).

Definition setArgumentsText (v : string) (st : State) : State :=
  mkState (status st) (responseText st) v (serverName st) (toolName st).

Section Handler.

(** [mcpExecutionStatusSchema.safeParse(safeJsonParse(text, {}))]: the
    parsed record when [result.success], [None] otherwise. *)
Variable parseStatus : string -> option Schema.McpExecutionStatus.

(** The body run once [result.success] holds.  [executionId],
    [isArguments], [argumentsText] and [responseText] are the values the
    callback closed over (its [useCallback] dependencies); the updates act
    on the current state. *)
Definition onStatus (executionId : string) (isArguments : bool)
    (argumentsText responseText : string)
    (data : Schema.McpExecutionStatus) (st : State) : State :=
  (* Only update if this message is for our response *)
  if String.eqb (Schema.executionId data) executionId then
    let st := setStatus (Some data) st in
    match Schema.status data, nonEmpty (Schema.response data) with
    | Schema.Output, Some response =>
        let st := setResponseText (fun prev => prev ++ response) st in
        if isArguments && String.eqb argumentsText responseText
        then setArgumentsText responseText st
        else st
    | Schema.Completed, Some response =>
        let st := setResponseText (fun _ => response) st in
        if isArguments && String.eqb argumentsText responseText
        then setArgumentsText responseText st
        else st
    | _, _ => st
    end
  else st.

Definition onMessage (executionId : string) (isArguments : bool)
    (argumentsText responseText : string)
    (message : Schema.ExtensionMessage) (st : State) : State :=
  if String.eqb (Schema.type message) "mcpExecutionStatus" then
    match parseStatus (or_else (Schema.text message) "{}") with
    | Some data =>
        onStatus executionId isArguments argumentsText responseText data st
    | None => st
    end
  else st.

(** A mounted component: its state, and the [argumentsText] and
    [responseText] seen by the handler that is currently subscribed. *)
Record Component : Type := mkComponent {
  state : State;
  seenArgumentsText : string;
  seenResponseText : string
}.

Definition mount (p : Props) : Component :=
  let st := initialState p in
  mkComponent st (argumentsText st) (responseText st).

(** A [message] event reaches the subscribed handler. *)
Definition deliver (p : Props) (message : Schema.ExtensionMessage)
    (c : Component) : Component :=
  mkComponent
    (onMessage (executionId p) (isArguments p)
       (seenArgumentsText c) (seenResponseText c) message (state c))
    (seenArgumentsText c) (seenResponseText c).

(** A render commits: [useCallback] rebuilds the handler over the current
    state and [useEvent] subscribes it.  The effect of lines 124-156
    depends on the props and on [serverName] and [toolName] only, which no
    status message changes, so it does not run again here. *)
Definition rerender (c : Component) : Component :=
  mkComponent (state c) (argumentsText (state c)) (responseText (state c)).

(** The usual schedule: a render commits after every message. *)
Definition deliverAll (p : Props) (messages : list Schema.ExtensionMessage)
    (c : Component) : Component :=
  fold_left (fun c m => rerender (deliver p m c)) messages c.

(** [message] is a status message whose text passes the schema as [data]. *)
Definition Carries (message : Schema.ExtensionMessage)
    (data : Schema.McpExecutionStatus) : Prop :=
  Schema.type message = "mcpExecutionStatus"
  /\ parseStatus (or_else (Schema.text message) "{}") = Some data.

End Handler.

(** The view the component shows, in the vocabulary of the protocol: the
    phase is the tag of the last status stored, the error its [error]
    field, the accumulated response the response text. *)
Inductive Phase : Type :=
| Pending | PhaseStarted | Streaming | PhaseCompleted | PhaseError.

Definition phase (st : State) : Phase :=
  match status st with
  | None => Pending
  | Some d =>
      match Schema.status d with
      | Schema.Started => PhaseStarted
      | Schema.Output => Streaming
      | Schema.Completed => PhaseCompleted
      | Schema.Error => PhaseError
      end
  end.

Definition viewError (st : State) : option string :=
  match status st with
  | None => None
  | Some d => Schema.error d
  end.

Definition accumulatedResponse (st : State) : string := responseText st.

End Projector.

(** ** Concrete surroundings for the worked runs *)

Module Fixtures.
Import Js Schema Orchestrator.

(** A parser that knows the empty object and one argument document. *)
Definition parseKnown (s : string) : option Json :=
  if String.eqb s "{}" then Some (JObject [])
  else if String.eqb s ("{" ++ JSON.dquote ++ "q" ++ JSON.dquote ++ ":1}")
  then Some (JObject [("q", JNumber 1)])
  else None.

Definition envWith (approve : bool) : Env :=
  mkEnv
    (fun _ x => or_else x EmptyString)
    (fun _ _ => approve)
    parseKnown
    JSON.stringify
    1700000000123
    (fun tool param =>
       "Missing value for required parameter '" ++ param ++ "' of " ++ tool)
    (fun e => "The tool execution failed: " ++ e)
    (fun server tool => "Invalid JSON argument used with " ++ server ++ " for " ++ tool)
    (fun t => t).

Definition hubReturning (r : option McpToolCallResponse) : McpHub :=
  mkHub (fun _ _ _ => Resolves r).

Definition taskWith (ts : option Z) (ref : WeakRef) : Task := mkTask 2 ts ref.

Definition liveTask (r : option McpToolCallResponse) : Task :=
  taskWith (Some 1700000000000%Z) (Live (mkProvider (Some (hubReturning r)))).

Definition blockFor (server tool : string) : ToolUse :=
  mkToolUse (mkParams (Some server) (Some tool) None) false.

Definition weatherBlock : ToolUse := blockFor "weather" "forecast".

Definition textAB : McpToolCallResponse :=
  mkResponse (Some [TextItem "A"; TextItem "B"]) false.

Definition pdfResource : list (string * Json) :=
  [ ("uri", JString "file:///report.pdf");
    ("mimeType", JString "application/pdf");
    ("blob", JString "JVBERi0xLjQK") ].

Definition withResource : McpToolCallResponse :=
  mkResponse (Some [TextItem "see attachment"; ResourceItem pdfResource]) false.

Definition failing : McpToolCallResponse :=
  mkResponse (Some [TextItem "boom"; OtherItem "image"; TextItem EmptyString]) true.

(** A task whose provider is alive but has no MCP hub. *)
Definition hublessTask : Task :=
  taskWith (Some 1700000000000%Z) (Live (mkProvider None)).

(** A task whose provider has been collected before the run. *)
Definition collectedTask : Task := taskWith (Some 1700000000000%Z) Collected.

(** A second task, on another hub, whose last message bears the same
    timestamp as that of [liveTask]. *)
Definition otherTask : Task :=
  mkTask 0 (Some 1700000000000%Z)
    (Live (mkProvider (Some (hubReturning (Some failing))))).

Definition filesBlock : ToolUse := blockFor "files" "read".

Definition noServerBlock : ToolUse :=
  mkToolUse (mkParams (Some EmptyString) (Some "t") None) false.

Definition noToolBlock : ToolUse :=
  mkToolUse (mkParams (Some "weather") None None) false.

(** The webview side: messages as the reference serializer writes them,
    and a schema parser that recognises the serializations of [known]. *)
Definition wire (s : McpExecutionStatus) : ExtensionMessage :=
  statusMessage (envWith true) s.

Definition parseFrom (known : list McpExecutionStatus) (text : string)
  : option McpExecutionStatus :=
  find (fun s => String.eqb (JSON.stringify (toJson s) 0) text) known.

Definition rowProps : Projector.Props :=
  Projector.mkProps "1700000000000" None (Some "weather") (Some "forecast") false.

Definition streamed : Projector.State :=
  Projector.mkState
    (Some (outputEvent "1700000000000" "partial"))
    "partial" EmptyString (Some "weather") (Some "forecast").

Definition failedEvent : McpExecutionStatus :=
  errorEvent "1700000000000" (Some ("Error:" ++ LF ++ "boom"))
    "Error executing MCP tool".

Definition chunkEvent : McpExecutionStatus :=
  outputEvent "1700000000000" " and more".

Definition doneEvent : McpExecutionStatus :=
  completedEvent "1700000000000" "all of it".

Definition emptyDoneEvent : McpExecutionStatus :=
  completedEvent "1700000000000" EmptyString.

Definition knownEvents : list McpExecutionStatus :=
  [ failedEvent; chunkEvent; doneEvent; emptyDoneEvent ].

End Fixtures.

(** ** The orchestrator, all branches

    Vocabulary for statements that range over every block, not only over
    the approved ones. *)

Module Branches.
Import Js Schema Orchestrator.

(** The partial message of lines 20-25. *)
Definition partialMessageOf (env : Env) (block : ToolUse) : string :=
  JSON_stringify env
    (askToJson
       (mkAsk "use_mcp_tool"
          (Some (removeClosingTag env "server_name" (server_name (params block))))
          (Some (removeClosingTag env "tool_name" (tool_name (params block))))
          (Some (removeClosingTag env "arguments" (arguments (params block))))))
    0.

(** The branch of the function a run takes, with what decides it. *)
Inductive Situation (env : Env) (cline : Task) (block : ToolUse) : Prop :=
| StillStreaming :
    partial block = true -> Situation env cline block
| ServerMissing :
    partial block = false ->
    truthy (server_name (params block)) = false ->
    Situation env cline block
| ToolMissing :
    partial block = false ->
    truthy (server_name (params block)) = true ->
    truthy (tool_name (params block)) = false ->
    Situation env cline block
| ArgumentsInvalid (server tool : string) :
    partial block = false ->
    nonEmpty (server_name (params block)) = Some server ->
    nonEmpty (tool_name (params block)) = Some tool ->
    parseArguments env (arguments (params block)) = None ->
    Situation env cline block
| Refused (server tool : string) (args : option Json) :
    Declined env block server tool args -> Situation env cline block
| Answered (server tool : string) (args : option Json)
    (r : McpToolCallResponse) :
    Approved env block server tool args ->
    remoteOutcome cline server tool args = Resolves (Some r) ->
    Situation env cline block
| Unanswered (server tool : string) (args : option Json) :
    Approved env block server tool args ->
    remoteOutcome cline server tool args = Resolves None ->
    Situation env cline block
| Failed (server tool : string) (args : option Json) (e : JsError) :
    Approved env block server tool args ->
    remoteOutcome cline server tool args = Rejects e ->
    Situation env cline block.

(** What becomes of [consecutiveMistakeCount], read off the block alone. *)
Inductive Verdict : Type := Echoed | Mistaken | Accepted.

Definition verdict (env : Env) (block : ToolUse) : Verdict :=
  if partial block then Echoed
  else if negb (truthy (server_name (params block))) then Mistaken
  else if negb (truthy (tool_name (params block))) then Mistaken
  else match parseArguments env (arguments (params block)) with
       | None => Mistaken
       | Some _ => Accepted
       end.

(** The tool results pushed, in order. *)
Fixpoint pushed (l : list Effect) : list string :=
  match l with
  | [] => []
  | PushToolResult c :: rest => c :: pushed rest
  | _ :: rest => pushed rest
  end.

(** The approval questions asked, in order. *)
Fixpoint approvalsAsked (l : list Effect) : list (string * string) :=
  match l with
  | [] => []
  | AskApproval k t :: rest => (k, t) :: approvalsAsked rest
  | _ :: rest => approvalsAsked rest
  end.

(** The errors handed to [handleError], in order. *)
Fixpoint handled (l : list Effect) : list (string * JsError) :=
  match l with
  | [] => []
  | HandleError a e :: rest => (a, e) :: handled rest
  | _ :: rest => handled rest
  end.

(** What [cline.say] was called with, in order. *)
Fixpoint said (l : list Effect) : list (string * option string) :=
  match l with
  | [] => []
  | Say k t :: rest => (k, t) :: said rest
  | _ :: rest => said rest
  end.

Definition hasId (id : string) (s : McpExecutionStatus) : bool :=
  String.eqb (executionId s) id.

Definition isStatus (k : Status) (s : McpExecutionStatus) : bool :=
  match k, status s with
  | Started, Started | Output, Output
  | Completed, Completed | Error, Error => true
  | _, _ => false
  end.

(** A stream for one execution: nothing; or [started], then at most one
    [output], then at most one terminal event that closes the stream, all
    under the same id. *)
Definition streamShape (id : string) (events : list McpExecutionStatus) : bool :=
  forallb (hasId id) events
  && match events with
     | [] => true
     | s :: rest =>
         isStatus Started s
         && match rest with
            | [] => true
            | [t] => isTerminal t
            | [o; t] => isStatus Output o && isTerminal t
            | _ => false
            end
     end.

(** The text told to the model after an approved call. *)
Definition toldOf (env : Env) (answer : option McpToolCallResponse) : string :=
  match answer with
  | Some r => prettyOf env r
  | None => "(No response)"
  end.

End Branches.

(** ** The rest of the component: formatting, the mount effect, the header

    [safeJsonParse] and [JSON.stringify] are section variables. *)

Module View.
Import Js Projector.

(** [useMcpServer], a [ClineAskUseMcpServer] with the fields read here. *)
Record McpServerUse : Type := mkUse {
  use_type : string;
  use_serverName : string;
  use_toolName : option string;
  use_arguments : option string;
  use_response : option string
}.

Record McpTool : Type := mkTool {
  name : string;
  description : option string;
  alwaysAllow : option bool
}.

Record McpServer : Type := mkServer {
  tools : option (list McpTool);
  source : option string
}.

(** The props the handler does not read. *)
Record RestProps : Type := mkRest {
  server : option McpServer;
  useMcpServer : option McpServerUse;
  alwaysAllowMcp : bool
}.

Definition setServerName (v : option string) (st : State) : State :=
  mkState (status st) (responseText st) (argumentsText st) v (toolName st).

Definition setToolName (v : option string) (st : State) : State :=
  mkState (status st) (responseText st) (argumentsText st) (serverName st) v.

(** [v !== null] *)
Definition notNull (v : Json) : bool :=
  match v with
  | JNull => false
  | _ => true
  end.

(** [v && typeof v === "object"]: objects and arrays. *)
Definition isObject (v : Json) : bool :=
  match v with
  | JObject _ | JArray _ => true
  | _ => false
  end.

(** [a !== b] for a string [a] and a [string | undefined] [b]. *)
Definition differs (a : string) (b : option string) : bool :=
  match b with
  | Some s => negb (String.eqb a s)
  | None => true
  end.

Section Formatting.

(** [safeJsonParse(text, defaultValue)] *)
Variable safeJsonParse : string -> Json -> Json.

(** [JSON.stringify(v, null, space)] *)
Variable JSON_stringify : Json -> nat -> string.

(** Lines 55-69. *)
Definition formatJsonText (inputText : string) : string :=
  if negb (Boolean inputText) then EmptyString
  else
    let parsed := safeJsonParse inputText JNull in
    if notNull parsed then JSON_stringify parsed 2 else inputText.

(** The body of the effect of lines 124-156, on the state the render that
    scheduled it has seen. *)
Definition mountEffect (p : Props) (rest : RestProps) (st : State) : State :=
  let st1 :=
    match nonEmpty (text p) with
    | Some text =>
        let jsonObj := safeJsonParse text JNull in
        if isObject jsonObj
        then setArgumentsText (JSON_stringify jsonObj 2) st
        else setArgumentsText text st
    | None => st
    end in
  let st2 :=
    match nonEmpty (match useMcpServer rest with
                    | Some u => use_response u
                    | None => None
                    end) with
    | Some response => setResponseText (fun _ => response) st1
    | None => st1
    end in
  let st3 :=
    match nonEmpty (initialServerName p) with
    | Some initialServerName =>
        if differs initialServerName (serverName st)
        then setServerName (Some initialServerName) st2
        else st2
    | None => st2
    end in
  match nonEmpty (initialToolName p) with
  | Some initialToolName =>
      if differs initialToolName (toolName st)
      then setToolName (Some initialToolName) st3
      else st3
  | None => st3
  end.

End Formatting.

(** *** The header (lines 168-193) *)

(** The label next to the dot. *)
Definition statusLabel (s : Schema.Status) : string :=
  match s with
  | Schema.Started => "Running"
  | Schema.Completed => "Completed"
  | _ => "Error"
  end.

(** The colour class [cn] adds to the dot, if any. *)
Definition dotClass (s : Schema.Status) : option string :=
  match s with
  | Schema.Started => Some "bg-vscode-inputValidation-infoBackground"
  | Schema.Completed => Some "bg-vscode-charts-green"
  | Schema.Error => Some "bg-vscode-errorForeground"
  | Schema.Output => None
  end.

(** The colour class [cn] adds to the label, if any. *)
Definition labelClass (s : Schema.Status) : option string :=
  match s with
  | Schema.Started => Some "text-vscode-inputValidation-infoForeground"
  | Schema.Completed => Some "text-vscode-charts-green"
  | Schema.Error => Some "text-vscode-errorForeground"
  | Schema.Output => None
  end.

(** The parenthesised error after the label, if shown. *)
Definition errorDetail (d : Schema.McpExecutionStatus) : option string :=
  match Schema.status d, nonEmpty (Schema.error d) with
  | Schema.Error, Some e => Some ("(" ++ e ++ ")")
  | _, _ => None
  end.

Record Header : Type := mkHeader {
  dot : option string;
  label : string;
  labelColour : option string;
  detail : option string
}.

(** [status && (...)] *)
Definition header (st : State) : option Header :=
  match status st with
  | Some d =>
      Some (mkHeader (dotClass (Schema.status d))
              (statusLabel (Schema.status d))
              (labelClass (Schema.status d))
              (errorDetail d))
  | None => None
  end.

(** *** The sections (lines 196-258) *)

(** The props handed to [McpToolRow]. *)
Record ToolRow : Type := mkRow {
  row_name : string;
  row_description : string;
  row_alwaysAllow : bool;
  row_serverName : string;
  row_serverSource : option string;
  row_alwaysAllowMcp : bool
}.

(** [server?.tools?.find((tool) => tool.name === toolName)] *)
Definition findTool (server : option McpServer) (toolName : option string)
  : option McpTool :=
  match server with
  | Some s =>
      match tools s with
      | Some l =>
          find (fun tool => match toolName with
                            | Some n => String.eqb (name tool) n
                            | None => false
                            end) l
      | None => None
      end
  | None => None
  end.

(** The rows rendered by the two tool information blocks, in order. *)
Definition toolRows (p : Props) (rest : RestProps) (st : State) : list ToolRow :=
  (match useMcpServer rest with
   | Some u =>
       if negb (isArguments p) && String.eqb (use_type u) "use_mcp_tool" then
         let found := findTool (server rest) (use_toolName u) in
         [ mkRow (or_else (use_toolName u) EmptyString)
             (or_else (match found with
                       | Some t => description t
                       | None => None
                       end) EmptyString)
             (match found with
              | Some t => match alwaysAllow t with Some b => b | None => false end
              | None => false
              end)
             (use_serverName u)
             (match server rest with Some s => source s | None => None end)
             (alwaysAllowMcp rest) ]
       else []
   | None => []
   end)
  ++
  (match useMcpServer rest, nonEmpty (toolName st), nonEmpty (serverName st) with
   | None, Some toolName, Some serverName =>
       if negb (isArguments p)
       then [ mkRow toolName EmptyString false serverName None false ]
       else []
   | _, _, _ => []
   end)%list.

(** Whether the response section is rendered. *)
Definition showsResponse (st : State) : bool := Boolean (responseText st).

End View.

(** ** Both ends of the channel *)

Module Wire.
Import Js Schema.

(** The schema reads the message written for [s] back as a record with
    the fields of [s] that the handler and the header look at: the id,
    the status and the error, and the response on every event but an
    [error] event, where neither of them reads it. *)
Definition ReadsBack (parseStatus : string -> option McpExecutionStatus)
    (env : Orchestrator.Env) (s : McpExecutionStatus) : Prop :=
  exists data,
    Projector.Carries parseStatus (Orchestrator.statusMessage env s) data
    /\ executionId data = executionId s
    /\ status data = status s
    /\ error data = error s
    /\ (status s <> Error -> response data = response s).

(** The handler of the component for [id] acts on [message]. *)
Definition addressedTo (parseStatus : string -> option McpExecutionStatus)
    (id : string) (message : ExtensionMessage) : bool :=
  String.eqb (type message) "mcpExecutionStatus"
  && match parseStatus (or_else (text message) "{}") with
     | Some data => String.eqb (executionId data) id
     | None => false
     end.

End Wire.

(** ** More concrete surroundings *)

Module MoreFixtures.
Import Js Schema Orchestrator Fixtures.

Definition partialBlock : ToolUse :=
  mkToolUse (mkParams None (Some "fore") None) true.

Definition badArgumentsBlock : ToolUse :=
  mkToolUse (mkParams (Some "weather") (Some "forecast") (Some "{bad")) false.

Definition argumentsBlock : ToolUse :=
  mkToolUse
    (mkParams (Some "weather") (Some "forecast")
       (Some ("{" ++ JSON.dquote ++ "q" ++ JSON.dquote ++ ":1}")))
    false.

Definition rejectingTask : Task :=
  taskWith (Some 1700000000000%Z)
    (Live (mkProvider (Some (mkHub (fun _ _ _ => Rejects "timeout"))))).

Definition id0 : string := "1700000000000".

(** A table parser for [safeJsonParse]: one object document, one string
    document, and the pretty form of the object. *)
Definition cityDoc : Json := JObject [("city", JString "Oslo")].

Definition cityCompact : string :=
  "{" ++ JSON.dquote ++ "city" ++ JSON.dquote ++ ":" ++ JSON.dquote ++ "Oslo"
    ++ JSON.dquote ++ "}".

Definition safeParseKnown (text : string) (default : Json) : Json :=
  if String.eqb text cityCompact then cityDoc
  else if String.eqb text (JSON.stringify cityDoc 2) then cityDoc
  else if String.eqb text (JSON.dquote ++ "hi" ++ JSON.dquote) then JString "hi"
  else default.

Definition argsProps : Projector.Props :=
  Projector.mkProps id0 (Some cityCompact) (Some "weather") (Some "forecast") true.

Definition weatherServer : View.McpServer :=
  View.mkServer
    (Some [ View.mkTool "forecast" (Some "Weather forecast") (Some true);
            View.mkTool "forecast" (Some "shadowed") (Some false);
            View.mkTool "alerts" None None ])
    (Some "global").

Definition weatherUse : View.McpServerUse :=
  View.mkUse "use_mcp_tool" "weather" (Some "forecast") None (Some "sunny").

Definition weatherRest : View.RestProps :=
  View.mkRest (Some weatherServer) (Some weatherUse) true.

Definition bareRest : View.RestProps := View.mkRest None None false.

End MoreFixtures.

(** * Properties *)

(** ** JavaScript primitives *)

Module JsFacts.
Import Js.

Lemma to_int_proper (n : Z) :
  Z.to_int n <> Decimal.Pos Decimal.Nil /\ Z.to_int n <> Decimal.Neg Decimal.Nil.
Proof.
  destruct n as [|p|p]; simpl; split; try discriminate;
    intros E; injection E; apply DecimalPos.Unsigned.to_uint_nonnil.
Qed.

(** Reading the digits back gives the number. *)
Lemma toString_parse (n : Z) :
  NilZero.int_of_string (toString n) = Some (Z.to_int n).
Proof.
  unfold toString. destruct (to_int_proper n). now apply NilZero.isi.
Qed.

Lemma toString_inj (a b : Z) : toString a = toString b -> a = b.
Proof.
  intros E. apply DecimalZ.to_int_inj.
  assert (H : Some (Z.to_int a) = Some (Z.to_int b))
    by (rewrite <- !toString_parse; now rewrite E).
  now injection H.
Qed.

Example toString_samples :
  toString 0 = "0" /\ toString 1700000000000 = "1700000000000"
  /\ toString (-15) = "-15".
Proof. repeat split. Qed.

Lemma omit_absent (k : string) (o : list (string * Json)) :
  ~ In k (map fst (omit k o)).
Proof.
  unfold omit. intros H. apply in_map_iff in H as [[k' v] [E H]].
  apply filter_In in H as [_ H]. simpl in *. subst k'.
  now rewrite String.eqb_refl in H.
Qed.

Lemma omit_keeps (k k' : string) (v : Json) (o : list (string * Json)) :
  k' <> k -> (In (k', v) (omit k o) <-> In (k', v) o).
Proof.
  intros N. unfold omit. rewrite filter_In. simpl.
  apply String.eqb_neq in N. rewrite N. simpl. tauto.
Qed.

Lemma omit_idempotent (k : string) (o : list (string * Json)) :
  omit k (omit k o) = omit k o.
Proof.
  unfold omit. induction o as [|[k' v] o IH]; simpl; [reflexivity|].
  destruct (String.eqb k' k) eqn:E; simpl; [exact IH|].
  now rewrite E, IH.
Qed.

Lemma append_empty_r (s : string) : s ++ EmptyString = s.
Proof. induction s as [|c s IH]; simpl; congruence. Qed.

Lemma append_assoc (a b c : string) : (a ++ b) ++ c = a ++ (b ++ c).
Proof. induction a as [|x a IH]; simpl; congruence. Qed.

Lemma Boolean_false (s : string) : Boolean s = false <-> s = EmptyString.
Proof. destruct s; simpl; split; congruence. Qed.

Lemma Boolean_append (a b : string) : Boolean a = true -> Boolean (a ++ b) = true.
Proof. destruct a; simpl; congruence. Qed.

(** A join of non-empty pieces is empty only when there are none. *)
Lemma join_Boolean (sep : string) (l : list string) :
  Forall (fun s => Boolean s = true) l ->
  Boolean (join sep l) = match l with [] => false | _ => true end.
Proof.
  intros F. destruct F as [|x l Hx _]; [reflexivity|].
  unfold join. simpl. destruct l; [exact Hx|]. now apply Boolean_append.
Qed.

Lemma filter_Boolean_all (l : list string) :
  Forall (fun s => Boolean s = true) (filter Boolean l).
Proof. apply Forall_forall. intros s H. now apply filter_In in H. Qed.

(** The reference serializer on the two shapes used in the examples. *)
Example stringify_compact :
  JSON.stringify (JObject [("a", JNumber 1); ("b", JArray [JBool true; JNull])]) 0
  = "{" ++ JSON.dquote ++ "a" ++ JSON.dquote ++ ":1," ++ JSON.dquote ++ "b"
      ++ JSON.dquote ++ ":[true,null]}".
Proof. reflexivity. Qed.

Example stringify_pretty :
  JSON.stringify (JObject [("uri", JString "file:///a.txt")]) 2
  = "{" ++ LF ++ "  " ++ JSON.dquote ++ "uri" ++ JSON.dquote ++ ": "
      ++ JSON.dquote ++ "file:///a.txt" ++ JSON.dquote ++ LF ++ "}".
Proof. reflexivity. Qed.

End JsFacts.

(** ** The orchestrator *)

Module OrchestratorFacts.
Import Js Schema Orchestrator.

(** *** Joining *)

Lemma outputTextOf_joinNonEmpty (env : Env) (items : list ContentItem) :
  outputTextOf env items = joinNonEmpty (map (itemText env) items).
Proof.
  unfold outputTextOf.
  induction items as [|item items IH]; [reflexivity|].
  simpl map. simpl filter. simpl joinNonEmpty.
  destruct (Boolean (itemText env item)) eqn:E; [|exact IH].
  rewrite <- IH.
  rewrite (JsFacts.join_Boolean _ _ (JsFacts.filter_Boolean_all _)).
  unfold join. simpl.
  destruct (filter Boolean (map (itemText env) items)); reflexivity.
Qed.

Lemma outputTextOf_nil (env : Env) : outputTextOf env [] = EmptyString.
Proof. reflexivity. Qed.

Lemma itemText_stripBlob (env : Env) (item : ContentItem) :
  itemText env (stripBlob item) = itemText env item.
Proof.
  destruct item; simpl; try reflexivity.
  now rewrite JsFacts.omit_idempotent.
Qed.

Lemma outputText_stripBlobs (env : Env) (r : McpToolCallResponse) :
  outputText env (stripBlobs r) = outputText env r.
Proof.
  unfold outputText, contentItems, stripBlobs, outputTextOf. simpl.
  destruct (content r) as [items|]; simpl; [|reflexivity].
  rewrite map_map.
  now rewrite (map_ext _ _ (itemText_stripBlob env)).
Qed.

(** *** The run of a request that reaches the approval question *)

Lemma run_to_decision env cline block server tool args decision :
  Decided env block server tool args decision ->
  run env cline block =
    let ask := AskApproval "use_mcp_server"
                 (completeMessageOf env server tool (arguments (params block))) in
    if decision then
      tryCatch
        (bind (emit ask)
           (fun _ => executeTool env (executionIdOf env cline) server tool args))
        (fun error => emit (HandleError "executing MCP tool" error))
        (resetTask cline)
    else (Normal tt, resetTask cline, [ask]).
Proof.
  intros (Hp & Hs & Ht & Ha & Hd).
  unfold run, useMcpToolTool. rewrite Hp, Hs, Ht, Ha.
  unfold tryCatch, bind, setMistakeCount, getTask, requestApproval, emit, ret.
  simpl. rewrite Hd. unfold executionIdOf, resetTask.
  destruct decision; simpl; [|reflexivity].
  destruct (executeTool _ _ _ _ _ _) as [[[a|e] t] l]; reflexivity.
Qed.

(** *** The part after approval *)

Lemma posted_app (l1 l2 : list Effect) :
  posted (l1 ++ l2) = (posted l1 ++ posted l2)%list.
Proof.
  induction l1 as [|e l1 IH]; [reflexivity|].
  destruct e; simpl; now rewrite ?IH.
Qed.

Lemma remoteCalls_app (l1 l2 : list Effect) :
  remoteCalls (l1 ++ l2) = (remoteCalls l1 ++ remoteCalls l2)%list.
Proof.
  induction l1 as [|e l1 IH]; [reflexivity|].
  destruct e; simpl; now rewrite ?IH.
Qed.

(** A remote call that settles needs the provider at the second [deref],
    so the provider was there at the first. *)
Lemma remoteOutcome_live cline server tool args r :
  remoteOutcome cline server tool args = Resolves (Some r) ->
  exists p hub,
    providerRef cline = Live p /\ getMcpHub p = Some hub
    /\ callTool hub server tool args = Resolves (Some r).
Proof.
  unfold remoteOutcome.
  destruct (providerRef cline) as [|p|p]; simpl; try discriminate.
  destruct (getMcpHub p) as [hub|] eqn:E; try discriminate.
  intros H. now exists p, hub.
Qed.

Lemma content_outputText env r :
  match content r with
  | Some (item :: items) => outputTextOf env (item :: items)
  | _ => EmptyString
  end = outputText env r.
Proof.
  unfold outputText, contentItems.
  destruct (content r) as [[|item items]|]; reflexivity.
Qed.

Lemma executeTool_result env id server tool args cline r :
  remoteOutcome cline server tool args = Resolves (Some r) ->
  executeTool env id server tool args cline =
    (Normal tt, cline,
     [ Say "mcp_server_request_started" None;
       PostMessageToWebview (statusMessage env (startedEvent id server tool));
       CallTool server tool args ]
     ++ map (fun s => PostMessageToWebview (statusMessage env s))
          (resultEvents env id r)
     ++ [ Say "mcp_server_response" (Some (prettyOf env r));
          PushToolResult (formatResponse_toolResult env (prettyOf env r)) ])%list.
Proof.
  intros H. destruct (remoteOutcome_live _ _ _ _ _ H) as (p & hub & Hr & Hh & Hc).
  unfold resultEvents, terminalEvent, prettyOf.
  rewrite <- (content_outputText env r).
  unfold executeTool, callToolViaHub, bind, getTask, say, pushToolResult,
    postMessageToWebview, emit, ret.
  repeat (progress (simpl; rewrite ?Hr, ?Hh, ?Hc)).
  destruct (content r) as [[|item items]|]; simpl; try reflexivity.
  destruct (Boolean (outputTextOf env (item :: items))); reflexivity.
Qed.

Lemma executeTool_no_result env id server tool args cline :
  remoteOutcome cline server tool args = Resolves None ->
  executeTool env id server tool args cline =
    (Normal tt, cline,
     [ Say "mcp_server_request_started" None ]
     ++ postIfReachable cline (statusMessage env (startedEvent id server tool))
     ++ match hubOf cline with
        | Some _ => [ CallTool server tool args ]
        | None => []
        end
     ++ postIfReachable cline
          (statusMessage env (errorEvent id None "No response from MCP server"))
     ++ [ Say "mcp_server_response" (Some "(No response)");
          PushToolResult (formatResponse_toolResult env "(No response)") ])%list.
Proof.
  unfold remoteOutcome, hubOf, postIfReachable.
  unfold executeTool, callToolViaHub, bind, getTask, say, pushToolResult,
    postMessageToWebview, emit, ret.
  destruct (providerRef cline) as [|p|p] eqn:Hr; simpl;
    rewrite ?Hr; simpl; try reflexivity.
  destruct (getMcpHub p) as [hub|]; simpl; [|reflexivity].
  intros Hc. now rewrite Hc.
Qed.

Lemma executeTool_rejects env id server tool args cline e :
  remoteOutcome cline server tool args = Rejects e ->
  executeTool env id server tool args cline =
    (Throw e, cline,
     [ Say "mcp_server_request_started" None;
       PostMessageToWebview (statusMessage env (startedEvent id server tool));
       CallTool server tool args ]).
Proof.
  unfold remoteOutcome.
  unfold executeTool, callToolViaHub, bind, getTask, say, pushToolResult,
    postMessageToWebview, emit, ret, throw.
  destruct (providerRef cline) as [|p|p] eqn:Hr; simpl;
    rewrite ?Hr; simpl; try discriminate.
  destruct (getMcpHub p) as [hub|]; simpl; [|discriminate].
  intros Hc. now rewrite Hc.
Qed.

(** *** Whole runs *)

(** Step a run up to the approval answer, leaving [executeTool]. *)
Ltac past_approval H :=
  rewrite (run_to_decision _ _ _ _ _ _ _ H);
  cbv zeta; unfold tryCatch, bind, emit.

Lemma run_declined env cline block server tool args :
  Declined env block server tool args ->
  run env cline block =
    (Normal tt, resetTask cline,
     [ AskApproval "use_mcp_server"
         (completeMessageOf env server tool (arguments (params block))) ]).
Proof. intros H. now rewrite (run_to_decision _ _ _ _ _ _ _ H). Qed.

Lemma run_result env cline block server tool args r :
  Approved env block server tool args ->
  remoteOutcome cline server tool args = Resolves (Some r) ->
  run env cline block =
    (Normal tt, resetTask cline,
     [ AskApproval "use_mcp_server"
         (completeMessageOf env server tool (arguments (params block)));
       Say "mcp_server_request_started" None;
       PostMessageToWebview
         (statusMessage env (startedEvent (executionIdOf env cline) server tool));
       CallTool server tool args ]
     ++ map (fun s => PostMessageToWebview (statusMessage env s))
          (resultEvents env (executionIdOf env cline) r)
     ++ [ Say "mcp_server_response" (Some (prettyOf env r));
          PushToolResult (formatResponse_toolResult env (prettyOf env r)) ])%list.
Proof.
  intros H Hr. past_approval H.
  now rewrite (executeTool_result env _ server tool args (resetTask cline) r Hr).
Qed.

Lemma run_no_result env cline block server tool args :
  Approved env block server tool args ->
  remoteOutcome cline server tool args = Resolves None ->
  run env cline block =
    (Normal tt, resetTask cline,
     [ AskApproval "use_mcp_server"
         (completeMessageOf env server tool (arguments (params block)));
       Say "mcp_server_request_started" None ]
     ++ postIfReachable cline
          (statusMessage env (startedEvent (executionIdOf env cline) server tool))
     ++ match hubOf cline with
        | Some _ => [ CallTool server tool args ]
        | None => []
        end
     ++ postIfReachable cline
          (statusMessage env
             (errorEvent (executionIdOf env cline) None
                "No response from MCP server"))
     ++ [ Say "mcp_server_response" (Some "(No response)");
          PushToolResult (formatResponse_toolResult env "(No response)") ])%list.
Proof.
  intros H Hr. past_approval H.
  now rewrite (executeTool_no_result env _ server tool args (resetTask cline) Hr).
Qed.

(** A rejected call leaves the stream without a terminal event; the error
    goes to [handleError]. *)
Lemma run_rejected env cline block server tool args e :
  Approved env block server tool args ->
  remoteOutcome cline server tool args = Rejects e ->
  run env cline block =
    (Normal tt, resetTask cline,
     [ AskApproval "use_mcp_server"
         (completeMessageOf env server tool (arguments (params block)));
       Say "mcp_server_request_started" None;
       PostMessageToWebview
         (statusMessage env (startedEvent (executionIdOf env cline) server tool));
       CallTool server tool args;
       HandleError "executing MCP tool" e ]).
Proof.
  intros H Hr. past_approval H.
  now rewrite (executeTool_rejects env _ server tool args (resetTask cline) e Hr).
Qed.

Lemma nonEmpty_truthy (x : option string) :
  nonEmpty x = None <-> truthy x = false.
Proof. destruct x as [[|c s]|]; simpl; split; congruence. Qed.

Lemma run_missing_server env cline block :
  partial block = false ->
  truthy (server_name (params block)) = false ->
  run env cline block =
    (Normal tt, mistakenTask cline,
     [ RecordToolError "use_mcp_tool";
       SayAndCreateMissingParamError "use_mcp_tool" "server_name";
       PushToolResult (missingParamError env "use_mcp_tool" "server_name") ]).
Proof.
  intros Hp Hs. apply nonEmpty_truthy in Hs.
  unfold run, useMcpToolTool. now rewrite Hp, Hs.
Qed.

Lemma run_missing_tool env cline block :
  partial block = false ->
  truthy (server_name (params block)) = true ->
  truthy (tool_name (params block)) = false ->
  run env cline block =
    (Normal tt, mistakenTask cline,
     [ RecordToolError "use_mcp_tool";
       SayAndCreateMissingParamError "use_mcp_tool" "tool_name";
       PushToolResult (missingParamError env "use_mcp_tool" "tool_name") ]).
Proof.
  intros Hp Hs Ht. apply nonEmpty_truthy in Ht.
  unfold run, useMcpToolTool. rewrite Hp, Ht.
  destruct (server_name (params block)) as [[|c s]|]; try discriminate.
  reflexivity.
Qed.

(** Undecodable arguments: reported to the caller, nothing posted. *)
Lemma run_invalid_arguments env cline block server tool :
  partial block = false ->
  nonEmpty (server_name (params block)) = Some server ->
  nonEmpty (tool_name (params block)) = Some tool ->
  parseArguments env (arguments (params block)) = None ->
  run env cline block =
    (Normal tt, mistakenTask cline,
     [ RecordToolError "use_mcp_tool";
       Say "error"
         (Some ("Roo tried to use " ++ tool
                  ++ " with an invalid JSON argument. Retrying..."));
       PushToolResult
         (formatResponse_toolError env
            (formatResponse_invalidMcpToolArgumentError env server tool)) ]).
Proof.
  intros Hp Hs Ht Ha.
  unfold run, useMcpToolTool. now rewrite Hp, Hs, Ht, Ha.
Qed.

Lemma posted_map_status env (events : list McpExecutionStatus) :
  posted (map (fun s => PostMessageToWebview (statusMessage env s)) events)
  = map (statusMessage env) events.
Proof. induction events; simpl; congruence. Qed.

(** Some text comes out exactly when some item yields non-empty text. *)
Lemma outputText_Boolean env r :
  Boolean (outputText env r) = true
  <-> exists item, In item (contentItems r) /\ Boolean (itemText env item) = true.
Proof.
  unfold outputText, outputTextOf.
  rewrite (JsFacts.join_Boolean _ _ (JsFacts.filter_Boolean_all _)).
  split.
  - destruct (filter Boolean (map (itemText env) (contentItems r)))
      as [|s l] eqn:E; [discriminate|]. intros _.
    assert (H : In s (filter Boolean (map (itemText env) (contentItems r))))
      by (rewrite E; now left).
    apply filter_In in H as [H Hs]. apply in_map_iff in H as (item & <- & H).
    now exists item.
  - intros (item & Hin & Hb).
    assert (H : In (itemText env item)
                  (filter Boolean (map (itemText env) (contentItems r))))
      by (apply filter_In; split; [now apply in_map|exact Hb]).
    destruct (filter Boolean (map (itemText env) (contentItems r)));
      [destruct H|reflexivity].
Qed.

Lemma outputText_silent env r :
  (forall item, In item (contentItems r) -> itemText env item = EmptyString) ->
  Boolean (outputText env r) = false.
Proof.
  intros H. destruct (Boolean (outputText env r)) eqn:E; [|reflexivity].
  apply outputText_Boolean in E as (item & Hin & Hb).
  rewrite (H item Hin) in Hb. discriminate.
Qed.

Lemma posted_result env cline block server tool args r :
  Approved env block server tool args ->
  remoteOutcome cline server tool args = Resolves (Some r) ->
  posted (traceOf env cline block)
  = map (statusMessage env)
      (startedEvent (executionIdOf env cline) server tool
         :: resultEvents env (executionIdOf env cline) r).
Proof.
  intros H Hr. unfold traceOf. rewrite (run_result _ _ _ _ _ _ _ H Hr).
  simpl. rewrite posted_app, posted_map_status. simpl.
  now rewrite app_nil_r.
Qed.

(** *** Pre-flight validation and approval *)

(** C9.  A complete block whose [server_name] or [tool_name] is missing or
    empty ends in the missing-parameter error for the first such field:
    the mistake counter goes up by one, the error is created for that
    field and pushed as the tool result, no message is posted to the
    webview and the hub is never called. *)
Theorem missing_parameter_preflight env cline block :
  partial block = false ->
  truthy (server_name (params block)) = false
  \/ truthy (tool_name (params block)) = false ->
  exists field,
    ((field = "server_name" /\ truthy (server_name (params block)) = false)
     \/ (field = "tool_name" /\ truthy (tool_name (params block)) = false))
    /\ run env cline block =
         (Normal tt, mistakenTask cline,
          [ RecordToolError "use_mcp_tool";
            SayAndCreateMissingParamError "use_mcp_tool" field;
            PushToolResult (missingParamError env "use_mcp_tool" field) ])
    /\ posted (traceOf env cline block) = []
    /\ remoteCalls (traceOf env cline block) = [].
Proof.
  intros Hp H.
  destruct (truthy (server_name (params block))) eqn:Hs.
  - destruct H as [H|Ht]; [discriminate|].
    exists "tool_name". unfold traceOf.
    rewrite (run_missing_tool env cline block Hp Hs Ht). auto.
  - exists "server_name". unfold traceOf.
    rewrite (run_missing_server env cline block Hp Hs). auto.
Qed.

(** C8.  A valid request that the approval collaborator declines leaves
    the approval question as the only effect: no status message is posted
    and the hub is never called. *)
Theorem declined_is_silent env cline block server tool args :
  Declined env block server tool args ->
  traceOf env cline block =
    [ AskApproval "use_mcp_server"
        (completeMessageOf env server tool (arguments (params block))) ]
  /\ posted (traceOf env cline block) = []
  /\ remoteCalls (traceOf env cline block) = [].
Proof.
  intros H. unfold traceOf. rewrite (run_declined _ cline _ _ _ _ H). auto.
Qed.

(** *** Translating the result *)

(** C7.  When the call returns items of which at least one yields
    non-empty text, the text sent on is the items' texts, empty ones
    dropped, with a blank line between neighbours; it is posted as
    [output] and again in the terminal event.  For the two text items "A"
    and "B" without error flag the text is "A\n\nB" and the terminal
    event is [completed] with that response. *)
Theorem text_items_joined env cline block server tool args r :
  Approved env block server tool args ->
  remoteOutcome cline server tool args = Resolves (Some r) ->
  (exists item, In item (contentItems r) /\ Boolean (itemText env item) = true) ->
  let id := executionIdOf env cline in
  let out := outputText env r in
  out = joinNonEmpty (map (itemText env) (contentItems r))
  /\ posted (traceOf env cline block)
     = map (statusMessage env)
         [ startedEvent id server tool;
           outputEvent id out;
           terminalEvent env id r ]
  /\ (isError r = false -> terminalEvent env id r = completedEvent id out)
  /\ (contentItems r = [TextItem "A"; TextItem "B"] ->
      out = "A" ++ LF ++ LF ++ "B").
Proof.
  intros H Hr Hne id out. apply outputText_Boolean in Hne.
  repeat split.
  - apply outputTextOf_joinNonEmpty.
  - rewrite (posted_result _ _ _ _ _ _ _ H Hr).
    unfold resultEvents. now rewrite Hne.
  - intros He. unfold terminalEvent, prettyOf, completedEvent.
    now rewrite Hne, He.
  - intros Hc. unfold out, outputText. now rewrite Hc.
Qed.

(** C10.  For a result flagged as an error, when some item yields
    non-empty text the terminal [error] event carries the response
    "Error:\n" followed by the joined text; whatever the flag, when no
    item yields text the terminal event carries the response
    "(No response)" and no [output] event is posted. *)
Theorem error_result_response env cline block server tool args r :
  Approved env block server tool args ->
  remoteOutcome cline server tool args = Resolves (Some r) ->
  let id := executionIdOf env cline in
  let out := outputText env r in
  (isError r = true ->
   (exists item, In item (contentItems r) /\ Boolean (itemText env item) = true) ->
   out = joinNonEmpty (map (itemText env) (contentItems r))
   /\ posted (traceOf env cline block)
      = map (statusMessage env)
          [ startedEvent id server tool;
            outputEvent id out;
            errorEvent id (Some ("Error:" ++ LF ++ out))
              "Error executing MCP tool" ])
  /\ ((forall item, In item (contentItems r) -> itemText env item = EmptyString) ->
      posted (traceOf env cline block)
      = map (statusMessage env)
          [ startedEvent id server tool; terminalEvent env id r ]
      /\ response (terminalEvent env id r) = Some "(No response)").
Proof.
  intros H Hr id out. rewrite (posted_result _ _ _ _ _ _ _ H Hr).
  unfold resultEvents, terminalEvent, prettyOf. split.
  - intros He Hne. apply outputText_Boolean in Hne.
    split; [apply outputTextOf_joinNonEmpty|].
    now rewrite Hne, He.
  - intros Hs. apply outputText_silent in Hs. now rewrite Hs.
Qed.

(** C2.  A resource item contributes the pretty-printed ([space = 2])
    object made of the resource's properties other than [blob]; every
    response posted is built from these texts alone, so that two results
    which agree once the [blob] properties are dropped give the same
    trace: the payload reaches no status event, nor any other effect. *)
Theorem resource_blob_not_forwarded env cline block server tool args r :
  Approved env block server tool args ->
  remoteOutcome cline server tool args = Resolves (Some r) ->
  let joined := joinNonEmpty (map (itemText env) (contentItems r)) in
  (forall resource, In (ResourceItem resource) (contentItems r) ->
     itemText env (ResourceItem resource)
     = JSON_stringify env (JObject (omit "blob" resource)) 2
     /\ ~ In "blob" (map fst (omit "blob" resource))
     /\ (forall k v, k <> "blob" ->
           (In (k, v) (omit "blob" resource) <-> In (k, v) resource)))
  /\ (exists events,
        posted (traceOf env cline block) = map (statusMessage env) events
        /\ forall e t, In e events -> response e = Some t ->
             t = joined \/ t = "Error:" ++ LF ++ joined \/ t = "(No response)")
  /\ (forall cline' r',
        lastMessageTs cline' = lastMessageTs cline ->
        remoteOutcome cline' server tool args = Resolves (Some r') ->
        stripBlobs r' = stripBlobs r ->
        traceOf env cline' block = traceOf env cline block).
Proof.
  intros H Hr joined. repeat split.
  - apply JsFacts.omit_absent.
  - now apply JsFacts.omit_keeps.
  - now apply JsFacts.omit_keeps.
  - eexists. split; [apply (posted_result _ _ _ _ _ _ _ H Hr)|].
    intros e t. unfold resultEvents, terminalEvent, prettyOf, outputText.
    rewrite outputTextOf_joinNonEmpty. fold joined. unfold errorPrefix.
    destruct (Boolean joined), (isError r); simpl;
      intuition (subst; simpl in *; try discriminate; try tauto;
                 match goal with
                 | E : Some _ = Some _ |- _ => injection E as <-; tauto
                 end).
  - intros cline' r' Hts Hr' Hs. unfold traceOf.
    rewrite (run_result _ _ _ _ _ _ _ H Hr), (run_result _ _ _ _ _ _ _ H Hr').
    assert (Ho : outputText env r' = outputText env r)
      by (rewrite <- (outputText_stripBlobs env r'), Hs;
          apply outputText_stripBlobs).
    assert (He : isError r' = isError r)
      by (unfold stripBlobs in Hs; now injection Hs).
    unfold resultEvents, terminalEvent, prettyOf, executionIdOf.
    now rewrite Ho, He, Hts.
Qed.

(** *** A call without result *)

(** C3, as the code has it.  When the call hands back no result, what is
    posted depends on the provider alone: nothing when it has been
    collected, and otherwise [started] followed by exactly one terminal
    event, an [error] with message "No response from MCP server" and no
    response. *)
Theorem no_result_reports_error env cline block server tool args :
  Approved env block server tool args ->
  remoteOutcome cline server tool args = Resolves None ->
  let id := executionIdOf env cline in
  let events :=
    [ startedEvent id server tool;
      errorEvent id None "No response from MCP server" ] in
  posted (traceOf env cline block)
  = match derefForPost (providerRef cline) with
    | Some _ => map (statusMessage env) events
    | None => []
    end
  /\ filter isTerminal events = [ errorEvent id None "No response from MCP server" ]
  /\ (derefForPost (providerRef cline) <> None ->
      NoResultReport env cline block server tool "No response from MCP server").
Proof.
  intros H Hr id events.
  assert (P : posted (traceOf env cline block)
              = match derefForPost (providerRef cline) with
                | Some _ => map (statusMessage env) events
                | None => []
                end).
  { unfold traceOf. rewrite (run_no_result _ _ _ _ _ _ H Hr).
    unfold postIfReachable.
    destruct (derefForPost (providerRef cline)), (hubOf cline); reflexivity. }
  repeat split; [exact P|].
  intros Hp. exists None. rewrite P.
  now destruct (derefForPost (providerRef cline)).
Qed.

(** C3, as worded, fails twice: with a reachable provider the message
    posted is not "no response from remote server", and with a collected
    provider no terminal event is posted at all. *)
Lemma no_result_report_differs :
  ~ NoResultReport (Fixtures.envWith true) Fixtures.hublessTask
      Fixtures.weatherBlock "weather" "forecast"
      "no response from remote server"
  /\ ~ NoResultReport (Fixtures.envWith true) Fixtures.collectedTask
        Fixtures.weatherBlock "weather" "forecast"
        "No response from MCP server".
Proof.
  split; intros [resp H]; destruct resp; vm_compute in H; discriminate H.
Qed.

(** *** Execution ids *)

Lemma mintExecutionId_stamp (lastMessageTs : option Z) (now : Z) :
  mintExecutionId lastMessageTs now = toString (stampOf lastMessageTs now).
Proof. now destruct lastMessageTs. Qed.

(** C1, as the code has it.  The id is the decimal rendering of the last
    message's timestamp, or of the clock when the task has none; two
    invocations share their id exactly when they read the same
    timestamp. *)
Theorem executionId_shared_iff env1 cline1 env2 cline2 :
  executionIdOf env1 cline1 = executionIdOf env2 cline2
  <-> stampOf (lastMessageTs cline1) (Date_now env1)
      = stampOf (lastMessageTs cline2) (Date_now env2).
Proof.
  unfold executionIdOf. rewrite !mintExecutionId_stamp. split.
  - apply JsFacts.toString_inj.
  - now intros ->.
Qed.

(** C1, as worded, fails: two different invocations, on two tasks whose
    last messages bear the same timestamp, post [started] under the same
    id. *)
Lemma executionId_collision :
  let env := Fixtures.envWith true in
  let first := Fixtures.liveTask (Some Fixtures.textAB) in
  let second := Fixtures.otherTask in
  Fixtures.weatherBlock <> Fixtures.filesBlock
  /\ executionIdOf env first = executionIdOf env second
  /\ hd_error (posted (traceOf env first Fixtures.weatherBlock))
     = Some (statusMessage env
               (startedEvent "1700000000000" "weather" "forecast"))
  /\ hd_error (posted (traceOf env second Fixtures.filesBlock))
     = Some (statusMessage env
               (startedEvent "1700000000000" "files" "read")).
Proof.
  repeat split. discriminate.
Qed.

End OrchestratorFacts.

(** ** The projector *)

Module ProjectorFacts.
Import Js Projector.

Section Handler.

Variable parseStatus : string -> option Schema.McpExecutionStatus.

Variables (executionId : string) (isArguments : bool).

(** The values the subscribed handler closed over; any will do. *)
Variables (seenArguments seenResponse : string).

Local Abbreviation handle :=
  (onMessage parseStatus executionId isArguments seenArguments seenResponse).

Lemma onMessage_carries message data st :
  Carries parseStatus message data ->
  handle message st
  = onStatus executionId isArguments seenArguments seenResponse data st.
Proof.
  intros [Ht Hp]. unfold onMessage. rewrite Ht, Hp. reflexivity.
Qed.

(** Messages of another kind, malformed ones, and events of another
    execution leave the state alone. *)
Lemma onMessage_other_kind message st :
  Schema.type message <> "mcpExecutionStatus" -> handle message st = st.
Proof.
  intros H. unfold onMessage. apply String.eqb_neq in H. now rewrite H.
Qed.

Lemma onMessage_malformed message st :
  parseStatus (or_else (Schema.text message) "{}") = None ->
  handle message st = st.
Proof.
  intros H. unfold onMessage. rewrite H.
  now destruct (String.eqb (Schema.type message) "mcpExecutionStatus").
Qed.

Lemma onMessage_other_execution message data st :
  Carries parseStatus message data ->
  Schema.executionId data <> executionId ->
  handle message st = st.
Proof.
  intros C H. rewrite (onMessage_carries _ _ _ C). unfold onStatus.
  apply String.eqb_neq in H. now rewrite H.
Qed.

(** The handler never touches the response text on [started] and [error]. *)
Lemma onStatus_responseText data st :
  responseText
    (onStatus executionId isArguments seenArguments seenResponse data st)
  = if String.eqb (Schema.executionId data) executionId then
      match Schema.status data, nonEmpty (Schema.response data) with
      | Schema.Output, Some t => responseText st ++ t
      | Schema.Completed, Some t => t
      | _, _ => responseText st
      end
    else responseText st.
Proof.
  unfold onStatus.
  destruct (String.eqb (Schema.executionId data) executionId); [|reflexivity].
  destruct (Schema.status data), (nonEmpty (Schema.response data)); simpl;
    try reflexivity;
    destruct (isArguments && String.eqb seenArguments seenResponse);
    reflexivity.
Qed.

Lemma onStatus_status data st :
  Schema.executionId data = executionId ->
  status (onStatus executionId isArguments seenArguments seenResponse data st)
  = Some data.
Proof.
  intros H. unfold onStatus. rewrite H, String.eqb_refl.
  destruct (Schema.status data), (nonEmpty (Schema.response data)); simpl;
    try reflexivity;
    destruct (isArguments && String.eqb seenArguments seenResponse);
    reflexivity.
Qed.

(** C4, as the code has it.  An [error] event for this execution is
    stored as the status, so the phase is error and the error shown is the
    event's; the response text and the arguments text stay as they were,
    whether or not the event carries a response. *)
Theorem error_event_applied message data st :
  Carries parseStatus message data ->
  Schema.executionId data = executionId ->
  Schema.status data = Schema.Error ->
  let st' := handle message st in
  phase st' = PhaseError
  /\ viewError st' = Schema.error data
  /\ status st' = Some data
  /\ accumulatedResponse st' = accumulatedResponse st
  /\ argumentsText st' = argumentsText st.
Proof.
  intros C Hid Hs st'. unfold st'. rewrite (onMessage_carries _ _ _ C).
  unfold onStatus, phase, viewError, accumulatedResponse.
  rewrite Hid, String.eqb_refl, Hs. simpl. rewrite Hs. auto.
Qed.

(** C5, as the code has it.  An [output] event appends its response to the
    response text; a [completed] event with a non-empty response replaces
    the response text by it; a [completed] event whose response is empty
    or absent leaves the response text as it was. *)
Theorem output_appends_completed_replaces message data st :
  Carries parseStatus message data ->
  Schema.executionId data = executionId ->
  let st' := handle message st in
  (Schema.status data = Schema.Output ->
   forall t, Schema.response data = Some t ->
     accumulatedResponse st' = accumulatedResponse st ++ t)
  /\ (Schema.status data = Schema.Completed ->
      forall t, nonEmpty (Schema.response data) = Some t ->
        accumulatedResponse st' = t)
  /\ (Schema.status data = Schema.Completed ->
      nonEmpty (Schema.response data) = None ->
        accumulatedResponse st' = accumulatedResponse st).
Proof.
  intros C Hid st'. unfold st', accumulatedResponse.
  rewrite (onMessage_carries _ _ _ C), onStatus_responseText.
  rewrite Hid, String.eqb_refl.
  repeat split.
  - intros Hs t Ht. rewrite Hs, Ht.
    destruct t; simpl; [now rewrite JsFacts.append_empty_r|reflexivity].
  - intros Hs t Ht. now rewrite Hs, Ht.
  - intros Hs Ht. now rewrite Hs, Ht.
Qed.

End Handler.

(** [output] events delivered one after the other, a render in between,
    leave the response text extended by their responses in arrival
    order. *)
Lemma outputs_in_arrival_order parseStatus p messages :
  forall c,
  Forall (fun m => exists data,
            Carries parseStatus m data
            /\ Schema.executionId data = executionId p
            /\ Schema.status data = Schema.Output) messages ->
  exists chunks,
    Forall2 (fun m t => exists data,
               Carries parseStatus m data /\ Schema.response data = t)
      messages chunks
    /\ responseText (state (deliverAll parseStatus p messages c))
       = responseText (state c)
           ++ String.concat EmptyString
                (map (fun t => or_else t EmptyString) chunks).
Proof.
  induction messages as [|m messages IH]; intros c F.
  - exists []. split; [constructor|]. simpl. now rewrite JsFacts.append_empty_r.
  - inversion F as [|? ? (data & C & Hid & Hs) F']; subst.
    destruct (IH (rerender (deliver parseStatus p m c)) F')
      as (chunks & F2 & E).
    exists (Schema.response data :: chunks). split.
    + constructor; [now exists data|exact F2].
    + unfold deliverAll in *. simpl fold_left. rewrite E. simpl state.
      rewrite (onMessage_carries _ _ _ _ _ _ _ _ C), onStatus_responseText.
      rewrite Hid, String.eqb_refl, Hs.
      assert (J : forall a l, String.concat EmptyString (a :: l)
                              = a ++ String.concat EmptyString l)
        by (intros a [|b l]; simpl; [now rewrite JsFacts.append_empty_r|reflexivity]).
      simpl map. rewrite J. unfold or_else.
      destruct (nonEmpty (Schema.response data)); simpl;
        now rewrite ?JsFacts.append_assoc, ?JsFacts.append_empty_r.
Qed.

(** C6.  Delivering a terminal event a second time changes nothing,
    whether or not a render committed in between. *)
Theorem terminal_event_idempotent parseStatus p message data c :
  Carries parseStatus message data ->
  Schema.status data = Schema.Completed \/ Schema.status data = Schema.Error ->
  deliver parseStatus p message (deliver parseStatus p message c)
  = deliver parseStatus p message c
  /\ deliver parseStatus p message
       (rerender (deliver parseStatus p message c))
     = rerender (deliver parseStatus p message c).
Proof.
  intros C Hs. unfold deliver, rerender. simpl.
  rewrite !(onMessage_carries _ _ _ _ _ _ _ _ C). unfold onStatus.
  destruct (String.eqb (Schema.executionId data) (executionId p));
    [|now split].
  destruct Hs as [Hs|Hs]; rewrite Hs; [|now split].
  destruct (nonEmpty (Schema.response data)) as [t|]; [|now split].
  destruct c as [[s r a sn tn] sa sr]; simpl.
  destruct (isArguments p); simpl; [|now split].
  destruct (String.eqb sa sr) eqn:E1; simpl; split; try reflexivity.
  - destruct (String.eqb sr t) eqn:E2; [|reflexivity].
    apply String.eqb_eq in E2. now subst.
  - destruct (String.eqb a t) eqn:E2; [|reflexivity].
    apply String.eqb_eq in E2. now subst.
Qed.

(** C4, as worded, fails: an [error] event carrying a response leaves the
    response text at what was streamed before. *)
Lemma error_response_not_shown :
  let parse := Fixtures.parseFrom Fixtures.knownEvents in
  let st' := onMessage parse "1700000000000" false EmptyString "partial"
               (Fixtures.wire Fixtures.failedEvent) Fixtures.streamed in
  Carries parse (Fixtures.wire Fixtures.failedEvent) Fixtures.failedEvent
  /\ Schema.status Fixtures.failedEvent = Schema.Error
  /\ Schema.response Fixtures.failedEvent = Some ("Error:" ++ LF ++ "boom")
  /\ phase st' = PhaseError
  /\ accumulatedResponse st' = "partial"
  /\ accumulatedResponse st' <> "Error:" ++ LF ++ "boom".
Proof.
  repeat split. discriminate.
Qed.

(** C5, as worded, fails on its second half: a [completed] event whose
    response is the empty string does not replace the response text. *)
Lemma completed_empty_keeps_text :
  let parse := Fixtures.parseFrom Fixtures.knownEvents in
  let st' := onMessage parse "1700000000000" false EmptyString "partial"
               (Fixtures.wire Fixtures.emptyDoneEvent) Fixtures.streamed in
  Carries parse (Fixtures.wire Fixtures.emptyDoneEvent) Fixtures.emptyDoneEvent
  /\ Schema.status Fixtures.emptyDoneEvent = Schema.Completed
  /\ Schema.response Fixtures.emptyDoneEvent = Some EmptyString
  /\ phase st' = PhaseCompleted
  /\ accumulatedResponse st' = "partial"
  /\ accumulatedResponse st' <> EmptyString.
Proof.
  repeat split. discriminate.
Qed.

End ProjectorFacts.

(** ** Worked runs

    Each theorem above, applied to the concrete surroundings of
    [Fixtures]. *)

Module WorkedRuns.
Import Js Schema Orchestrator Fixtures.

Lemma weather_approved :
  Approved (envWith true) weatherBlock "weather" "forecast" None.
Proof. repeat split. Defined.

Lemma weather_declined :
  Declined (envWith false) weatherBlock "weather" "forecast" None.
Proof. repeat split. Defined.

(** The request [{serverName: "", toolName: "t"}], and a request without
    tool name. *)
Lemma missing_parameter_runs :
  let env := envWith true in
  let cline := liveTask None in
  let report field :=
    (Normal tt, mistakenTask cline,
     [ RecordToolError "use_mcp_tool";
       SayAndCreateMissingParamError "use_mcp_tool" field;
       PushToolResult (missingParamError env "use_mcp_tool" field) ]) in
  partial noServerBlock = false
  /\ truthy (server_name (params noServerBlock)) = false
  /\ partial noToolBlock = false
  /\ truthy (tool_name (params noToolBlock)) = false
  /\ run env cline noServerBlock = report "server_name"
  /\ posted (traceOf env cline noServerBlock) = []
  /\ remoteCalls (traceOf env cline noServerBlock) = []
  /\ run env cline noToolBlock = report "tool_name"
  /\ posted (traceOf env cline noToolBlock) = []
  /\ remoteCalls (traceOf env cline noToolBlock) = [].
Proof.
  intros env cline report.
  destruct (OrchestratorFacts.missing_parameter_preflight
              env cline noServerBlock eq_refl (or_introl eq_refl))
    as (f1 & _ & R1 & P1 & C1).
  destruct (OrchestratorFacts.missing_parameter_preflight
              env cline noToolBlock eq_refl (or_intror eq_refl))
    as (f2 & _ & R2 & P2 & C2).
  do 4 (split; [reflexivity|]).
  split; [reflexivity|]. split; [exact P1|]. split; [exact C1|].
  split; [reflexivity|]. split; [exact P2 | exact C2].
Defined.

Lemma declined_run :
  Declined (envWith false) weatherBlock "weather" "forecast" None
  /\ posted (traceOf (envWith false) (liveTask (Some textAB)) weatherBlock) = []
  /\ remoteCalls (traceOf (envWith false) (liveTask (Some textAB)) weatherBlock)
     = [].
Proof.
  split; [exact weather_declined|].
  exact (proj2 (OrchestratorFacts.declined_is_silent
                  (envWith false) (liveTask (Some textAB)) weatherBlock
                  "weather" "forecast" None weather_declined)).
Defined.

(** The result [{content: [text "A", text "B"], isError: false}]. *)
Lemma text_AB_run :
  let env := envWith true in
  let cline := liveTask (Some textAB) in
  let id := "1700000000000" in
  Approved env weatherBlock "weather" "forecast" None
  /\ remoteOutcome cline "weather" "forecast" None = Resolves (Some textAB)
  /\ (exists item,
        In item (contentItems textAB) /\ Boolean (itemText env item) = true)
  /\ outputText env textAB = "A" ++ LF ++ LF ++ "B"
  /\ posted (traceOf env cline weatherBlock)
     = map (statusMessage env)
         [ startedEvent id "weather" "forecast";
           outputEvent id (outputText env textAB);
           terminalEvent env id textAB ]
  /\ terminalEvent env id textAB = completedEvent id (outputText env textAB).
Proof.
  intros env cline id.
  assert (N : exists item,
            In item (contentItems textAB) /\ Boolean (itemText env item) = true)
    by (exists (TextItem "A"); split; [now left|reflexivity]).
  destruct (OrchestratorFacts.text_items_joined env cline weatherBlock
              "weather" "forecast" None textAB weather_approved eq_refl N)
    as (_ & P & T & AB).
  split; [exact weather_approved|]. split; [reflexivity|].
  split; [exact N|]. split; [exact (AB eq_refl)|].
  split; [exact P | exact (T eq_refl)].
Defined.

(** A failing result with text, and a failing result without. *)
Lemma failing_runs :
  let env := envWith true in
  let id := "1700000000000" in
  let mute := mkResponse (Some [OtherItem "image"]) true in
  isError failing = true
  /\ (exists item,
        In item (contentItems failing) /\ Boolean (itemText env item) = true)
  /\ posted (traceOf env (liveTask (Some failing)) weatherBlock)
     = map (statusMessage env)
         [ startedEvent id "weather" "forecast";
           outputEvent id "boom";
           errorEvent id (Some ("Error:" ++ LF ++ "boom"))
             "Error executing MCP tool" ]
  /\ (forall item, In item (contentItems mute) -> itemText env item = EmptyString)
  /\ posted (traceOf env (liveTask (Some mute)) weatherBlock)
     = map (statusMessage env)
         [ startedEvent id "weather" "forecast";
           errorEvent id (Some "(No response)") "Error executing MCP tool" ].
Proof.
  intros env id mute.
  assert (N : exists item,
            In item (contentItems failing) /\ Boolean (itemText env item) = true)
    by (exists (TextItem "boom"); split; [now left|reflexivity]).
  assert (S : forall item, In item (contentItems mute) ->
                           itemText env item = EmptyString)
    by (intros item [<-|[]]; reflexivity).
  split; [reflexivity|]. split; [exact N|]. split.
  - exact (proj2 (proj1 (OrchestratorFacts.error_result_response
                           env (liveTask (Some failing)) weatherBlock
                           "weather" "forecast" None failing
                           weather_approved eq_refl) eq_refl N)).
  - split; [exact S|].
    exact (proj1 (proj2 (OrchestratorFacts.error_result_response
                           env (liveTask (Some mute)) weatherBlock
                           "weather" "forecast" None mute
                           weather_approved eq_refl) S)).
Defined.

(** A result with a PDF resource: the text posted is the resource without
    its [blob], and a result with another payload gives the same trace. *)
Lemma resource_run :
  let env := envWith true in
  let cline := liveTask (Some withResource) in
  let other :=
    mkResponse
      (Some [ TextItem "see attachment";
              ResourceItem
                [ ("uri", JString "file:///report.pdf");
                  ("blob", JString "AAAA");
                  ("mimeType", JString "application/pdf") ] ])
      false in
  Approved env weatherBlock "weather" "forecast" None
  /\ remoteOutcome cline "weather" "forecast" None = Resolves (Some withResource)
  /\ itemText env (ResourceItem pdfResource)
     = JSON_stringify env
         (JObject [ ("uri", JString "file:///report.pdf");
                    ("mimeType", JString "application/pdf") ]) 2
  /\ ~ In "blob" (map fst (omit "blob" pdfResource))
  /\ stripBlobs other = stripBlobs withResource
  /\ traceOf env (liveTask (Some other)) weatherBlock
     = traceOf env cline weatherBlock.
Proof.
  intros env cline other.
  destruct (OrchestratorFacts.resource_blob_not_forwarded env cline weatherBlock
              "weather" "forecast" None withResource weather_approved eq_refl)
    as (R & _ & I).
  destruct (R pdfResource (or_intror (or_introl eq_refl))) as (T & B & _).
  split; [exact weather_approved|]. split; [reflexivity|].
  split; [exact T|]. split; [exact B|]. split; [reflexivity|].
  exact (I (liveTask (Some other)) other eq_refl eq_refl eq_refl).
Defined.

(** A provider without hub: the call hands back nothing. *)
Lemma no_result_run :
  let env := envWith true in
  let cline := hublessTask in
  let id := "1700000000000" in
  Approved env weatherBlock "weather" "forecast" None
  /\ remoteOutcome cline "weather" "forecast" None = Resolves None
  /\ posted (traceOf env cline weatherBlock)
     = map (statusMessage env)
         [ startedEvent id "weather" "forecast";
           errorEvent id None "No response from MCP server" ]
  /\ NoResultReport env cline weatherBlock "weather" "forecast"
       "No response from MCP server".
Proof.
  intros env cline id.
  destruct (OrchestratorFacts.no_result_reports_error env cline weatherBlock
              "weather" "forecast" None weather_approved eq_refl)
    as (P & _ & N).
  split; [exact weather_approved|]. split; [reflexivity|].
  split; [exact P|]. apply N. discriminate.
Defined.

(** Two tasks whose last messages bear the same timestamp. *)
Lemma shared_stamp_run :
  stampOf (lastMessageTs (liveTask None)) (Date_now (envWith true))
  = stampOf (lastMessageTs otherTask) (Date_now (envWith false))
  /\ executionIdOf (envWith true) (liveTask None)
     = executionIdOf (envWith false) otherTask.
Proof.
  split; [reflexivity|].
  apply (OrchestratorFacts.executionId_shared_iff
           (envWith true) (liveTask None) (envWith false) otherTask).
  reflexivity.
Defined.

(** The projector on the wire form of three events. *)
Lemma error_event_run :
  let parse := parseFrom knownEvents in
  let st' := Projector.onMessage parse "1700000000000" false EmptyString
               "partial" (wire failedEvent) streamed in
  Projector.Carries parse (wire failedEvent) failedEvent
  /\ executionId failedEvent = "1700000000000"
  /\ status failedEvent = Error
  /\ Projector.phase st' = Projector.PhaseError
  /\ Projector.viewError st' = Some "Error executing MCP tool"
  /\ Projector.status st' = Some failedEvent
  /\ Projector.accumulatedResponse st' = "partial"
  /\ Projector.argumentsText st' = EmptyString.
Proof.
  intros parse st'.
  assert (C : Projector.Carries parse (wire failedEvent) failedEvent)
    by (split; reflexivity).
  split; [exact C|]. split; [reflexivity|]. split; [reflexivity|].
  exact (ProjectorFacts.error_event_applied parse "1700000000000" false
           EmptyString "partial" (wire failedEvent) failedEvent streamed
           C eq_refl eq_refl).
Defined.

Lemma output_then_completed_run :
  let parse := parseFrom knownEvents in
  let handle := Projector.onMessage parse "1700000000000" false EmptyString
                  "partial" in
  Projector.Carries parse (wire chunkEvent) chunkEvent
  /\ Projector.Carries parse (wire doneEvent) doneEvent
  /\ Projector.Carries parse (wire emptyDoneEvent) emptyDoneEvent
  /\ Projector.accumulatedResponse (handle (wire chunkEvent) streamed)
     = "partial and more"
  /\ Projector.accumulatedResponse (handle (wire doneEvent) streamed)
     = "all of it"
  /\ Projector.accumulatedResponse (handle (wire emptyDoneEvent) streamed)
     = "partial".
Proof.
  intros parse handle.
  assert (C1 : Projector.Carries parse (wire chunkEvent) chunkEvent)
    by (split; reflexivity).
  assert (C2 : Projector.Carries parse (wire doneEvent) doneEvent)
    by (split; reflexivity).
  assert (C3 : Projector.Carries parse (wire emptyDoneEvent) emptyDoneEvent)
    by (split; reflexivity).
  split; [exact C1|]. split; [exact C2|]. split; [exact C3|]. split.
  - exact (proj1 (ProjectorFacts.output_appends_completed_replaces parse
                    "1700000000000" false EmptyString "partial"
                    (wire chunkEvent) chunkEvent streamed C1 eq_refl)
             eq_refl " and more" eq_refl).
  - split.
    + exact (proj1 (proj2 (ProjectorFacts.output_appends_completed_replaces
                             parse "1700000000000" false EmptyString "partial"
                             (wire doneEvent) doneEvent streamed C2 eq_refl))
               eq_refl "all of it" eq_refl).
    + exact (proj2 (proj2 (ProjectorFacts.output_appends_completed_replaces
                             parse "1700000000000" false EmptyString "partial"
                             (wire emptyDoneEvent) emptyDoneEvent streamed
                             C3 eq_refl))
               eq_refl eq_refl).
Defined.

Lemma duplicate_terminal_run :
  let parse := parseFrom knownEvents in
  let c := Projector.mkComponent streamed EmptyString "partial" in
  let once := Projector.deliver parse rowProps (wire doneEvent) c in
  Projector.Carries parse (wire doneEvent) doneEvent
  /\ status doneEvent = Completed
  /\ Projector.deliver parse rowProps (wire doneEvent) once = once
  /\ Projector.deliver parse rowProps (wire doneEvent) (Projector.rerender once)
     = Projector.rerender once.
Proof.
  intros parse c once.
  assert (C : Projector.Carries parse (wire doneEvent) doneEvent)
    by (split; reflexivity).
  split; [exact C|]. split; [reflexivity|].
  exact (ProjectorFacts.terminal_event_idempotent parse rowProps
           (wire doneEvent) doneEvent c C (or_introl eq_refl)).
Defined.

End WorkedRuns.

(** ** The orchestrator, branch by branch *)

Module BranchFacts.
Import Js Schema Orchestrator Branches.

Lemma truthy_nonEmpty (x : option string) :
  truthy x = true -> exists s, nonEmpty x = Some s.
Proof. destruct x as [[|c s]|]; simpl; try discriminate. now eexists. Qed.

(** Every run is in one of the eight situations. *)
Lemma situation env cline block : Situation env cline block.
Proof.
  destruct (partial block) eqn:Hp; [now apply StillStreaming|].
  destruct (truthy (server_name (params block))) eqn:Hs;
    [|now apply ServerMissing].
  destruct (truthy (tool_name (params block))) eqn:Ht;
    [|now apply ToolMissing].
  destruct (truthy_nonEmpty _ Hs) as [server Es].
  destruct (truthy_nonEmpty _ Ht) as [tool Et].
  destruct (parseArguments env (arguments (params block))) as [args|] eqn:Ha;
    [|now apply (ArgumentsInvalid _ _ _ server tool)].
  destruct (askApproval env "use_mcp_server"
              (completeMessageOf env server tool (arguments (params block))))
    eqn:Hd.
  - assert (A : Approved env block server tool args) by (repeat split; assumption).
    destruct (remoteOutcome cline server tool args) as [[r|]|e] eqn:R.
    + exact (Answered _ _ _ server tool args r A R).
    + exact (Unanswered _ _ _ server tool args A R).
    + exact (Failed _ _ _ server tool args e A R).
  - apply (Refused _ _ _ server tool args). repeat split; assumption.
Qed.

Lemma run_partial env cline block :
  partial block = true ->
  run env cline block =
    (Normal tt, cline, [ Ask "use_mcp_server" (partialMessageOf env block) true ]).
Proof.
  intros Hp. unfold run, useMcpToolTool. now rewrite Hp.
Qed.

(** The projections of a trace distribute over concatenation and skip the
    posted messages. *)
Lemma pushed_app l1 l2 : pushed (l1 ++ l2) = (pushed l1 ++ pushed l2)%list.
Proof. induction l1 as [|e l1 IH]; [reflexivity|]. destruct e; simpl; now rewrite ?IH. Qed.

Lemma said_app l1 l2 : said (l1 ++ l2) = (said l1 ++ said l2)%list.
Proof. induction l1 as [|e l1 IH]; [reflexivity|]. destruct e; simpl; now rewrite ?IH. Qed.

Lemma handled_app l1 l2 : handled (l1 ++ l2) = (handled l1 ++ handled l2)%list.
Proof. induction l1 as [|e l1 IH]; [reflexivity|]. destruct e; simpl; now rewrite ?IH. Qed.

Lemma approvalsAsked_app l1 l2 :
  approvalsAsked (l1 ++ l2) = (approvalsAsked l1 ++ approvalsAsked l2)%list.
Proof. induction l1 as [|e l1 IH]; [reflexivity|]. destruct e; simpl; now rewrite ?IH. Qed.

Section Posts.
Variables (env : Env) (events : list McpExecutionStatus).
Let posts := map (fun s => PostMessageToWebview (statusMessage env s)) events.

Lemma pushed_posts : pushed posts = [].
Proof. subst posts. induction events; simpl; congruence. Qed.

Lemma said_posts : said posts = [].
Proof. subst posts. induction events; simpl; congruence. Qed.

Lemma handled_posts : handled posts = [].
Proof. subst posts. induction events; simpl; congruence. Qed.

Lemma remoteCalls_posts : remoteCalls posts = [].
Proof. subst posts. induction events; simpl; congruence. Qed.

Lemma approvalsAsked_posts : approvalsAsked posts = [].
Proof. subst posts. induction events; simpl; congruence. Qed.
End Posts.

(** [prettyOf] is never empty: either the placeholder, or a non-empty
    joined text behind an optional prefix. *)
Lemma prettyOf_Boolean env r : Boolean (prettyOf env r) = true.
Proof.
  unfold prettyOf. destruct (Boolean (outputText env r)) eqn:E; [|reflexivity].
  unfold errorPrefix. destruct (isError r); [reflexivity|exact E].
Qed.

Lemma toldOf_Boolean env answer : Boolean (toldOf env answer) = true.
Proof. destruct answer; [apply prettyOf_Boolean|reflexivity]. Qed.

(** Rewrite [run env cline block] by the trace of its situation. *)
Ltac in_situation env cline block :=
  destruct (situation env cline block)
    as [ Hp | Hp Hs | Hp Hs Ht | server tool Hp Hs Ht Ha | server tool args D
       | server tool args r A R | server tool args A R | server tool args e A R ];
  [ rewrite (run_partial env cline block Hp)
  | rewrite (OrchestratorFacts.run_missing_server env cline block Hp Hs)
  | rewrite (OrchestratorFacts.run_missing_tool env cline block Hp Hs Ht)
  | rewrite (OrchestratorFacts.run_invalid_arguments
               env cline block server tool Hp Hs Ht Ha)
  | rewrite (OrchestratorFacts.run_declined env cline block server tool args D)
  | rewrite (OrchestratorFacts.run_result env cline block server tool args r A R)
  | rewrite (OrchestratorFacts.run_no_result env cline block server tool args A R)
  | rewrite (OrchestratorFacts.run_rejected
               env cline block server tool args e A R) ].

(** Normalise the projections of a trace. *)
Ltac project :=
  simpl;
  rewrite ?OrchestratorFacts.posted_app, ?OrchestratorFacts.remoteCalls_app,
    ?pushed_app, ?said_app, ?handled_app, ?approvalsAsked_app,
    ?OrchestratorFacts.posted_map_status, ?pushed_posts, ?said_posts,
    ?handled_posts, ?remoteCalls_posts, ?approvalsAsked_posts;
  simpl.

(** *** Branches the protocol leaves aside *)

(** X1.  A block that is still streaming is only echoed to the chat: one
    partial [ask], whatever the parameters hold (names missing, arguments
    malformed); the task is untouched, nothing is validated, asked for
    approval, posted, called or pushed. *)
Theorem partial_block_only_echoed env cline block :
  partial block = true ->
  run env cline block =
    (Normal tt, cline, [ Ask "use_mcp_server" (partialMessageOf env block) true ])
  /\ approvalsAsked (traceOf env cline block) = []
  /\ posted (traceOf env cline block) = []
  /\ remoteCalls (traceOf env cline block) = []
  /\ pushed (traceOf env cline block) = [].
Proof.
  intros Hp. unfold traceOf. rewrite (run_partial env cline block Hp). auto.
Qed.

(** X2.  Arguments that are present, non-empty and rejected by
    [JSON.parse] end the run before approval: the mistake counter goes up
    by one, an error naming the tool is said, the tool error for this
    server and tool is pushed; no approval is asked, nothing is posted and
    the hub is not called. *)
Theorem invalid_arguments_reported env cline block server tool a :
  partial block = false ->
  nonEmpty (server_name (params block)) = Some server ->
  nonEmpty (tool_name (params block)) = Some tool ->
  nonEmpty (arguments (params block)) = Some a ->
  JSON_parse env a = None ->
  run env cline block =
    (Normal tt, mistakenTask cline,
     [ RecordToolError "use_mcp_tool";
       Say "error"
         (Some ("Roo tried to use " ++ tool
                  ++ " with an invalid JSON argument. Retrying..."));
       PushToolResult
         (formatResponse_toolError env
            (formatResponse_invalidMcpToolArgumentError env server tool)) ])
  /\ approvalsAsked (traceOf env cline block) = []
  /\ posted (traceOf env cline block) = []
  /\ remoteCalls (traceOf env cline block) = [].
Proof.
  intros Hp Hs Ht Ha Hj.
  assert (P : parseArguments env (arguments (params block)) = None)
    by (unfold parseArguments; now rewrite Ha, Hj).
  unfold traceOf.
  rewrite (OrchestratorFacts.run_invalid_arguments _ cline _ _ _ Hp Hs Ht P).
  auto.
Qed.

(** X3.  Arguments that are absent or the empty string are not parsed at
    all: whatever [JSON.parse] would answer, an approved request reaches
    the hub once, with [undefined] arguments. *)
Theorem empty_arguments_not_parsed env cline block server tool hub :
  partial block = false ->
  nonEmpty (server_name (params block)) = Some server ->
  nonEmpty (tool_name (params block)) = Some tool ->
  truthy (arguments (params block)) = false ->
  askApproval env "use_mcp_server"
    (completeMessageOf env server tool (arguments (params block))) = true ->
  hubOf cline = Some hub ->
  Approved env block server tool None
  /\ remoteCalls (traceOf env cline block) = [ (server, tool, None) ].
Proof.
  intros Hp Hs Ht Ha Hd Hh.
  apply OrchestratorFacts.nonEmpty_truthy in Ha.
  assert (A : Approved env block server tool None).
  { repeat split; try assumption. unfold parseArguments. now rewrite Ha. }
  split; [exact A|]. unfold traceOf.
  destruct (remoteOutcome cline server tool None) as [[r|]|e] eqn:R.
  - rewrite (OrchestratorFacts.run_result _ _ _ _ _ _ _ A R). now project.
  - rewrite (OrchestratorFacts.run_no_result _ _ _ _ _ _ A R).
    unfold postIfReachable. rewrite Hh.
    destruct (derefForPost (providerRef cline)); reflexivity.
  - now rewrite (OrchestratorFacts.run_rejected _ _ _ _ _ _ _ A R).
Qed.

(** X4.  When the call rejects, the function still returns normally: the
    error goes to [handleError], [started] stays the only event posted (no
    output, no terminal event), no response is said and no tool result is
    pushed. *)
Theorem rejected_call_leaves_stream_open env cline block server tool args e :
  Approved env block server tool args ->
  remoteOutcome cline server tool args = Rejects e ->
  fst (fst (run env cline block)) = Normal tt
  /\ posted (traceOf env cline block)
     = [ statusMessage env
           (startedEvent (executionIdOf env cline) server tool) ]
  /\ handled (traceOf env cline block) = [ ("executing MCP tool", e) ]
  /\ said (traceOf env cline block) = [ ("mcp_server_request_started", None) ]
  /\ remoteCalls (traceOf env cline block) = [ (server, tool, args) ]
  /\ pushed (traceOf env cline block) = [].
Proof.
  intros A R. unfold traceOf.
  rewrite (OrchestratorFacts.run_rejected _ _ _ _ _ _ _ A R). auto 10.
Qed.

(** *** What holds of every run *)

Lemma hasId_refl id server tool :
  hasId id (startedEvent id server tool) = true.
Proof. apply String.eqb_refl. Qed.

Lemma streamShape_result env id server tool r :
  streamShape id (startedEvent id server tool :: resultEvents env id r) = true.
Proof.
  unfold streamShape, resultEvents, terminalEvent, hasId, isTerminal, isStatus.
  destruct (Boolean (outputText env r)), (isError r); simpl;
    now rewrite String.eqb_refl.
Qed.

(** X5.  Whatever the block, the task and the surroundings, the messages
    posted by one run form one well-shaped stream under the run's id:
    either nothing, or [started] first, then at most one [output], then at
    most one terminal event, after which nothing is posted. *)
Theorem posted_stream_shape env cline block :
  exists events,
    posted (traceOf env cline block) = map (statusMessage env) events
    /\ streamShape (executionIdOf env cline) events = true.
Proof.
  unfold traceOf. in_situation env cline block;
    try (exists []; split; reflexivity).
  - exists (startedEvent (executionIdOf env cline) server tool
              :: resultEvents env (executionIdOf env cline) r).
    split; [project; now rewrite app_nil_r|apply streamShape_result].
  - unfold postIfReachable.
    destruct (derefForPost (providerRef cline)).
    + exists [ startedEvent (executionIdOf env cline) server tool;
               errorEvent (executionIdOf env cline) None
                 "No response from MCP server" ].
      split; [destruct (hubOf cline); reflexivity|].
      unfold streamShape, hasId. simpl. now rewrite String.eqb_refl.
    + exists []. split; [destruct (hubOf cline); reflexivity|reflexivity].
  - exists [ startedEvent (executionIdOf env cline) server tool ].
    split; [reflexivity|].
    unfold streamShape, hasId. simpl. now rewrite String.eqb_refl.
Qed.

(** X6.  The hub is called at most once per run, and only for a complete,
    valid block the user approved: the run then starts with the approval
    question, asked once, and the call carries the narrowed names and the
    decoded arguments. *)
Theorem remote_call_needs_approval env cline block :
  remoteCalls (traceOf env cline block) = []
  \/ exists server tool args,
       Approved env block server tool args
       /\ remoteCalls (traceOf env cline block) = [ (server, tool, args) ]
       /\ approvalsAsked (traceOf env cline block)
          = [ ("use_mcp_server",
               completeMessageOf env server tool (arguments (params block))) ]
       /\ hd_error (traceOf env cline block)
          = Some (AskApproval "use_mcp_server"
                    (completeMessageOf env server tool
                       (arguments (params block)))).
Proof.
  unfold traceOf. in_situation env cline block; try (now left).
  - right. exists server, tool, args. split; [exact A|]. now project.
  - unfold postIfReachable.
    destruct (hubOf cline); [right|left].
    + exists server, tool, args. split; [exact A|].
      destruct (derefForPost (providerRef cline)); now project.
    + destruct (derefForPost (providerRef cline)); reflexivity.
  - right. exists server, tool, args. split; [exact A|]. now project.
Qed.

(** X7.  The function never throws and touches one field of the task: the
    mistake counter is left alone for a streaming block, incremented by
    one for a missing name or undecodable arguments, and reset to zero for
    every valid request, approved or not and whatever the call does. *)
Theorem mistake_counter_outcome env cline block :
  let '(completion, cline', _) := run env cline block in
  completion = Normal tt
  /\ lastMessageTs cline' = lastMessageTs cline
  /\ providerRef cline' = providerRef cline
  /\ consecutiveMistakeCount cline'
     = match verdict env block with
       | Echoed => consecutiveMistakeCount cline
       | Mistaken => S (consecutiveMistakeCount cline)
       | Accepted => 0
       end.
Proof.
  unfold verdict.
  in_situation env cline block; try rewrite Hp; simpl;
    repeat match goal with
      | H : Decided _ _ _ _ _ _ |- _ => destruct H as (Hp & Hs & Ht & Ha & Hd)
      | H : Approved _ _ _ _ _ |- _ => unfold Approved in H
      | H : Declined _ _ _ _ _ |- _ => unfold Declined in H
      end;
    rewrite ?Hp, ?Ha; simpl;
    repeat match goal with
      | H : nonEmpty ?x = Some _ |- context [truthy ?x] =>
          let E := fresh in
          destruct x as [[|? ?]|] eqn:E; simpl in H; try discriminate H; simpl
      | H : truthy ?x = _ |- context [truthy ?x] => rewrite H; simpl
      end;
    rewrite ?Ha; auto.
Qed.

(** X8.  After an approved call that settles, the model is told exactly
    what the chat is told: one response is said, the same text, formatted
    by [formatResponse.toolResult], is the one tool result pushed, and it
    is never empty.  When the call gave a result, that text is also the
    response of the terminal event, which is the last message posted. *)
Theorem told_is_said_is_posted env cline block server tool args answer :
  Approved env block server tool args ->
  remoteOutcome cline server tool args = Resolves answer ->
  let told := toldOf env answer in
  Boolean told = true
  /\ said (traceOf env cline block)
     = [ ("mcp_server_request_started", None);
         ("mcp_server_response", Some told) ]
  /\ pushed (traceOf env cline block) = [ formatResponse_toolResult env told ]
  /\ (forall r, answer = Some r ->
      exists before,
        posted (traceOf env cline block)
        = map (statusMessage env)
            (before ++ [ terminalEvent env (executionIdOf env cline) r ])
        /\ response (terminalEvent env (executionIdOf env cline) r)
           = Some told).
Proof.
  intros A R told. split; [apply toldOf_Boolean|].
  unfold traceOf. destruct answer as [r|].
  - rewrite (OrchestratorFacts.run_result _ _ _ _ _ _ _ A R).
    split; [now project|]. split; [now project|].
    intros r' E. injection E as <-.
    unfold resultEvents.
    destruct (Boolean (outputText env r)).
    + exists [ startedEvent (executionIdOf env cline) server tool;
               outputEvent (executionIdOf env cline) (outputText env r) ].
      split; reflexivity.
    + exists [ startedEvent (executionIdOf env cline) server tool ].
      split; reflexivity.
  - rewrite (OrchestratorFacts.run_no_result _ _ _ _ _ _ A R).
    unfold postIfReachable.
    destruct (derefForPost (providerRef cline)), (hubOf cline);
      (split; [reflexivity|]); (split; [reflexivity|]); discriminate.
Qed.

(** X9.  A run pushes at most one tool result, and it pushes none in three
    cases only: the block is still streaming, the user declined, or the
    call rejected. *)
Theorem tool_result_pushed_unless env cline block :
  length (pushed (traceOf env cline block)) <= 1
  /\ (pushed (traceOf env cline block) = []
      <-> partial block = true
          \/ (exists server tool args, Declined env block server tool args)
          \/ (exists server tool args e,
                Approved env block server tool args
                /\ remoteOutcome cline server tool args = Rejects e)).
Proof.
  split.
  - unfold traceOf. in_situation env cline block; project; auto.
    unfold postIfReachable.
    destruct (derefForPost (providerRef cline)), (hubOf cline); simpl; auto.
  - split.
    + unfold traceOf. in_situation env cline block; project;
        try discriminate; intros E.
      * now left.
      * right; left. now exists server, tool, args.
      * revert E. unfold postIfReachable.
        destruct (derefForPost (providerRef cline)), (hubOf cline);
          discriminate.
      * right; right. now exists server, tool, args, e.
    + unfold traceOf.
      intros [Hp | [(server & tool & args & D)
                   | (server & tool & args & e & A & R)]].
      * now rewrite (run_partial _ cline _ Hp).
      * now rewrite (OrchestratorFacts.run_declined _ cline _ _ _ _ D).
      * now rewrite (OrchestratorFacts.run_rejected _ _ _ _ _ _ _ A R).
Qed.

(** X10.  No event is ever posted with an empty response: an [output]
    event always carries a non-empty chunk, a [completed] event a
    non-empty final text, [started] carries none, and an [error] event
    carries a non-empty response or none. *)
Theorem posted_responses_not_empty env cline block :
  exists events,
    posted (traceOf env cline block) = map (statusMessage env) events
    /\ forall s, In s events ->
         match status s with
         | Started => response s = None
         | Output | Completed =>
             exists t, response s = Some t /\ Boolean t = true
         | Error =>
             response s = None
             \/ exists t, response s = Some t /\ Boolean t = true
         end.
Proof.
  unfold traceOf. in_situation env cline block;
    try (exists []; split; [reflexivity|intros s []]).
  - exists (startedEvent (executionIdOf env cline) server tool
              :: resultEvents env (executionIdOf env cline) r).
    split; [project; now rewrite app_nil_r|].
    intros s [<-|H]; [reflexivity|]. revert H.
    unfold resultEvents, terminalEvent.
    destruct (Boolean (outputText env r)) eqn:E.
    + intros [<-|[<-|[]]]; simpl.
      * now exists (outputText env r).
      * destruct (isError r); [right|];
          exists (prettyOf env r); split; auto using prettyOf_Boolean.
    + intros [<-|[]]; simpl.
      destruct (isError r); [right|];
        exists (prettyOf env r); split; auto using prettyOf_Boolean.
  - unfold postIfReachable.
    destruct (derefForPost (providerRef cline)).
    + exists [ startedEvent (executionIdOf env cline) server tool;
               errorEvent (executionIdOf env cline) None
                 "No response from MCP server" ].
      split; [destruct (hubOf cline); reflexivity|].
      intros s [<-|[<-|[]]]; simpl; auto.
    + exists []. split; [destruct (hubOf cline); reflexivity|intros s []].
  - exists [ startedEvent (executionIdOf env cline) server tool ].
    split; [reflexivity|]. intros s [<-|[]]. reflexivity.
Qed.

End BranchFacts.

(** ** The rest of the component *)

Module ViewFacts.
Import Js Projector View.

Section Handler.

Variable parseStatus : string -> option Schema.McpExecutionStatus.

Lemma onMessage_unless executionId isArguments seenArguments seenResponse
    message st :
  (forall data, Carries parseStatus message data ->
                Schema.executionId data <> executionId) ->
  onMessage parseStatus executionId isArguments seenArguments seenResponse
    message st = st.
Proof.
  intros H. unfold onMessage.
  destruct (String.eqb (Schema.type message) "mcpExecutionStatus") eqn:Et;
    [|reflexivity].
  destruct (parseStatus (or_else (Schema.text message) "{}")) as [data|] eqn:Ep;
    [|reflexivity].
  assert (C : Carries parseStatus message data)
    by (split; [now apply String.eqb_eq|exact Ep]).
  unfold onStatus. apply H, String.eqb_neq in C. now rewrite C.
Qed.

(** X11.  A message changes nothing unless it is an [mcpExecutionStatus]
    message whose text passes the schema and whose id is the component's:
    other kinds of message, malformed texts and the events of other
    executions all leave every state cell as it was. *)
Theorem message_ignored_unless_ours executionId isArguments seenArguments
    seenResponse message st :
  Schema.type message <> "mcpExecutionStatus"
  \/ parseStatus (or_else (Schema.text message) "{}") = None
  \/ (exists data,
        parseStatus (or_else (Schema.text message) "{}") = Some data
        /\ Schema.executionId data <> executionId) ->
  onMessage parseStatus executionId isArguments seenArguments seenResponse
    message st = st.
Proof.
  intros H. apply onMessage_unless. intros data [Ht Hp].
  destruct H as [H | [H | (data' & H & N)]].
  - contradiction.
  - congruence.
  - rewrite Hp in H. now injection H as ->.
Qed.

Lemma onStatus_names executionId isArguments seenArguments seenResponse data st :
  let st' := onStatus executionId isArguments seenArguments seenResponse data st in
  serverName st' = serverName st /\ toolName st' = toolName st.
Proof.
  unfold onStatus.
  destruct (String.eqb (Schema.executionId data) executionId); [|now split].
  destruct (Schema.status data), (nonEmpty (Schema.response data)); simpl;
    try (now split);
    destruct (isArguments && String.eqb seenArguments seenResponse);
    now split.
Qed.

Lemma onStatus_argumentsText executionId isArguments seenArguments seenResponse
    data st :
  let st' := onStatus executionId isArguments seenArguments seenResponse data st in
  argumentsText st' = argumentsText st \/ argumentsText st' = seenArguments.
Proof.
  unfold onStatus.
  destruct (String.eqb (Schema.executionId data) executionId); [|now left].
  destruct (Schema.status data), (nonEmpty (Schema.response data)); simpl;
    try (now left);
    (destruct isArguments; simpl; [|now left]);
    (destruct (String.eqb seenArguments seenResponse) eqn:E; [|now left]);
    apply String.eqb_eq in E; now right.
Qed.

(** X12.  No message ever changes the server name or the tool name (a
    [started] event carries both, and neither is read); and a handler
    subscribed by the last render never changes the arguments text. *)
Theorem message_keeps_names_and_arguments p message c :
  serverName (state (deliver parseStatus p message c)) = serverName (state c)
  /\ toolName (state (deliver parseStatus p message c)) = toolName (state c)
  /\ argumentsText (state (deliver parseStatus p message (rerender c)))
     = argumentsText (state c).
Proof.
  unfold deliver, rerender, onMessage. simpl.
  destruct (String.eqb (Schema.type message) "mcpExecutionStatus");
    [|now repeat split].
  destruct (parseStatus (or_else (Schema.text message) "{}")) as [data|];
    [|now repeat split].
  destruct (onStatus_names (executionId p) (isArguments p)
              (seenArgumentsText c) (seenResponseText c) data (state c))
    as [Hs Ht].
  destruct (onStatus_argumentsText (executionId p) (isArguments p)
              (argumentsText (state c)) (responseText (state c)) data (state c))
    as [Ha|Ha].
  - now repeat split.
  - now repeat split.
Qed.

(** X13.  While output is streaming the header reads "Error": an accepted
    [output] event gives the label of the error case, though without the
    colour classes and without error text; an accepted [error] event with
    a non-empty error gives the same label, coloured, followed by the
    error in parentheses. *)
Theorem header_after_event executionId isArguments seenArguments seenResponse
    message data st :
  Carries parseStatus message data ->
  Schema.executionId data = executionId ->
  let st' := onMessage parseStatus executionId isArguments seenArguments
               seenResponse message st in
  (Schema.status data = Schema.Output ->
   header st' = Some (mkHeader None "Error" None None))
  /\ (Schema.status data = Schema.Error ->
      forall e, nonEmpty (Schema.error data) = Some e ->
      header st'
      = Some (mkHeader (Some "bg-vscode-errorForeground") "Error"
                (Some "text-vscode-errorForeground") (Some ("(" ++ e ++ ")")))).
Proof.
  intros C Hid st'. unfold st', header.
  rewrite (ProjectorFacts.onMessage_carries _ _ _ _ _ _ _ _ C).
  rewrite (ProjectorFacts.onStatus_status _ _ _ _ _ _ Hid).
  unfold errorDetail.
  split; [intros Hs; now rewrite Hs|intros Hs e He; now rewrite Hs, He].
Qed.

End Handler.

(** *** Tool information *)

Lemma findTool_some server toolName tool :
  findTool server toolName = Some tool ->
  exists srv l,
    server = Some srv /\ tools srv = Some l /\ In tool l
    /\ toolName = Some (name tool).
Proof.
  unfold findTool. destruct server as [srv|]; [|discriminate].
  destruct (tools srv) as [l|] eqn:El; [|discriminate].
  intros F. apply find_some in F as [Hin Hn].
  destruct toolName as [n|]; [|discriminate].
  apply String.eqb_eq in Hn. subst n. now exists srv, l.
Qed.

(** X14.  At most one tool row is rendered, and none in the arguments
    view; a row is marked always-allowed only when the server's tool list
    holds a tool of the requested name that is, namely the one [find]
    returns, the first of that name. *)
Theorem tool_rows_backed p rest st :
  length (toolRows p rest st) <= 1
  /\ (isArguments p = true -> toolRows p rest st = [])
  /\ (forall row, In row (toolRows p rest st) -> row_alwaysAllow row = true ->
      exists u srv l tool,
        useMcpServer rest = Some u /\ server rest = Some srv
        /\ tools srv = Some l /\ In tool l
        /\ use_toolName u = Some (name tool)
        /\ findTool (server rest) (use_toolName u) = Some tool
        /\ alwaysAllow tool = Some true).
Proof.
  unfold toolRows.
  destruct (useMcpServer rest) as [u|].
  - rewrite app_nil_r.
    destruct (negb (isArguments p) && String.eqb (use_type u) "use_mcp_tool")
      eqn:E.
    + split; [simpl; auto|]. split.
      * intros Ha. rewrite Ha in E. discriminate.
      * intros row [<-|[]]. simpl.
        destruct (findTool (server rest) (use_toolName u)) as [tool|] eqn:F;
          [|discriminate].
        destruct (alwaysAllow tool) as [[|]|] eqn:Ea; try discriminate.
        intros _.
        destruct (findTool_some _ _ _ F) as (srv & l & Es & El & Hin & Hn).
        exists u, srv, l, tool. rewrite <- Es. now repeat split.
    + split; [simpl; auto|]. split; [reflexivity|intros row []].
  - simpl.
    destruct (nonEmpty (toolName st)), (nonEmpty (serverName st));
      simpl; try (split; [auto|split; [reflexivity|intros row []]]).
    destruct (isArguments p); simpl.
    + split; [auto|split; [reflexivity|intros row []]].
    + split; [auto|]. split; [discriminate|].
      intros row [<-|[]]. discriminate.
Qed.

(** *** Formatting and the mount effect *)

Section Formatting.

Variable safeJsonParse : string -> Json -> Json.
Variable JSON_stringify : Json -> nat -> string.

Local Abbreviation effect := (mountEffect safeJsonParse JSON_stringify).

(** X15.  Text that does not parse (or parses to [null]) is shown as it
    is, the empty text included; and formatting is idempotent as soon as
    the parser reads the pretty-printed document back as the document it
    was printed from. *)
Theorem formatJsonText_settles (inputText : string) :
  (safeJsonParse inputText JNull = JNull ->
   formatJsonText safeJsonParse JSON_stringify inputText = inputText)
  /\ (safeJsonParse
        (JSON_stringify (safeJsonParse inputText JNull) 2) JNull
      = safeJsonParse inputText JNull ->
      formatJsonText safeJsonParse JSON_stringify
        (formatJsonText safeJsonParse JSON_stringify inputText)
      = formatJsonText safeJsonParse JSON_stringify inputText).
Proof.
  unfold formatJsonText. split.
  - intros E. rewrite E. simpl. now destruct inputText.
  - intros E. destruct inputText as [|c s]; [reflexivity|]. simpl.
    destruct (notNull (safeJsonParse (String c s) JNull)) eqn:N.
    + destruct (Boolean (JSON_stringify (safeJsonParse (String c s) JNull) 2))
        eqn:B; simpl.
      * now rewrite E, N.
      * now apply JsFacts.Boolean_false in B.
    + simpl. now rewrite N.
Qed.

(** X16.  The mount effect settles at once: run again on the state it
    produced it changes nothing, so the re-run that its own dependencies
    [serverName] and [toolName] trigger is the last.  Afterwards a
    non-empty initial server or tool name is the name shown, and an empty
    or absent one has left the name alone. *)
Theorem mountEffect_settles p rest st :
  mountEffect safeJsonParse JSON_stringify p rest (effect p rest st)
  = mountEffect safeJsonParse JSON_stringify p rest st
  /\ serverName (effect p rest st)
     = match nonEmpty (initialServerName p) with
       | Some n => Some n
       | None => serverName st
       end
  /\ toolName (effect p rest st)
     = match nonEmpty (initialToolName p) with
       | Some n => Some n
       | None => toolName st
       end.
Proof.
  unfold mountEffect.
  destruct st as [s r a sn tn]. cbn [serverName toolName].
  destruct (nonEmpty (text p)) as [t|];
    [destruct (isObject (safeJsonParse t JNull))|];
    (destruct (nonEmpty match useMcpServer rest with
                        | Some u => use_response u
                        | None => None
                        end) as [resp|]);
    (destruct (nonEmpty (initialServerName p)) as [isn|];
     [destruct (differs isn sn) eqn:Ds|]);
    (destruct (nonEmpty (initialToolName p)) as [itn|];
     [destruct (differs itn tn) eqn:Dt|]);
    repeat match goal with
      | D : differs ?x ?y = false |- _ =>
          destruct y as [?|]; [|discriminate D];
          simpl in D; apply Bool.negb_false_iff, String.eqb_eq in D; subst
      end;
    simpl; rewrite ?String.eqb_refl; simpl; repeat split; reflexivity.
Qed.

(** X20.  A component mounted with a text and no recorded response
    starts with that text as its response text: the response section is
    shown at once, holding the text, and the first output chunk of the
    execution is appended to it.  A recorded response, when there is one,
    takes the place of the text. *)
Theorem mounted_text_is_response_text parseStatus p rest message data chunk :
  let st := mountEffect safeJsonParse JSON_stringify p rest (initialState p) in
  let recorded := nonEmpty (match useMcpServer rest with
                            | Some u => use_response u
                            | None => None
                            end) in
  Carries parseStatus message data ->
  Schema.executionId data = executionId p ->
  Schema.status data = Schema.Output ->
  Schema.response data = Some chunk ->
  responseText st
  = match recorded with
    | Some response => response
    | None => or_else (text p) EmptyString
    end
  /\ (recorded = None -> Boolean (or_else (text p) EmptyString) = true ->
      showsResponse st = true)
  /\ responseText
       (onMessage parseStatus (executionId p) (isArguments p)
          (argumentsText st) (responseText st) message st)
     = match recorded with
       | Some response => response
       | None => or_else (text p) EmptyString
       end ++ chunk.
Proof.
  intros st recorded C Hid Hs Hr.
  assert (R : responseText st
              = match recorded with
                | Some response => response
                | None => or_else (text p) EmptyString
                end).
  { unfold st, recorded, mountEffect, initialState.
    cbn [serverName toolName].
    destruct (nonEmpty (text p)) as [t|];
      [destruct (isObject (safeJsonParse t JNull))|];
      (destruct (nonEmpty match useMcpServer rest with
                          | Some u => use_response u
                          | None => None
                          end));
      (destruct (nonEmpty (initialServerName p)) as [isn|];
       [destruct (differs isn (initialServerName p))|]);
      (destruct (nonEmpty (initialToolName p)) as [itn|];
       [destruct (differs itn (initialToolName p))|]);
      reflexivity. }
  split; [exact R|]. split.
  - intros E B. unfold showsResponse. rewrite R, E. exact B.
  - rewrite (ProjectorFacts.onMessage_carries _ _ _ _ _ _ _ _ C).
    rewrite ProjectorFacts.onStatus_responseText, Hid, String.eqb_refl.
    rewrite Hs, Hr, R.
    destruct chunk; simpl; [now rewrite JsFacts.append_empty_r|reflexivity].
Qed.

End Formatting.

End ViewFacts.

(** ** From the call to the view *)

Module EndToEnd.
Import Js Schema Orchestrator Branches Wire.

Section Channel.

Variable parseStatus : string -> option McpExecutionStatus.
Variable env : Env.
Variable p : Projector.Props.

Local Abbreviation deliverAll := (Projector.deliverAll parseStatus p).

Lemma deliverAll_app ms1 ms2 c :
  deliverAll (ms1 ++ ms2) c = deliverAll ms2 (deliverAll ms1 c).
Proof. unfold Projector.deliverAll. apply fold_left_app. Qed.

Lemma nonEmpty_Boolean t : Boolean t = true -> nonEmpty (Some t) = Some t.
Proof. destruct t; [discriminate|reflexivity]. Qed.

(** One event of this execution, read back, delivered and committed. *)
Lemma step_readsBack s c :
  ReadsBack parseStatus env s ->
  executionId s = Projector.executionId p ->
  let c' := deliverAll [statusMessage env s] c in
  Projector.phase (Projector.state c')
  = match status s with
    | Started => Projector.PhaseStarted
    | Output => Projector.Streaming
    | Completed => Projector.PhaseCompleted
    | Error => Projector.PhaseError
    end
  /\ Projector.viewError (Projector.state c') = error s
  /\ Projector.responseText (Projector.state c')
     = match status s, nonEmpty (response s) with
       | Output, Some t => Projector.responseText (Projector.state c) ++ t
       | Completed, Some t => t
       | _, _ => Projector.responseText (Projector.state c)
       end.
Proof.
  intros (data & C & Hid & Hs & He & Hr) Hp.
  unfold Projector.deliverAll, Projector.deliver, Projector.rerender. simpl.
  rewrite (ProjectorFacts.onMessage_carries _ _ _ _ _ _ _ _ C).
  assert (Hid' : executionId data = Projector.executionId p) by congruence.
  unfold Projector.phase, Projector.viewError.
  rewrite (ProjectorFacts.onStatus_status _ _ _ _ _ _ Hid').
  rewrite ProjectorFacts.onStatus_responseText, Hid', String.eqb_refl.
  rewrite Hs, He. repeat split.
  destruct (status s) eqn:E; try reflexivity; rewrite Hr; congruence.
Qed.

(** X17.  A call that succeeds ends, in the view, on the text the model
    was told: whatever reached the component before (all, some or none of
    the earlier messages, duplicates, messages of other executions), once
    the terminal message of the run is delivered the phase is completed,
    the response text is the text of the pushed tool result, and the
    response section is shown. *)
Theorem completed_call_shown cline block server tool args r :
  Approved env block server tool args ->
  remoteOutcome cline server tool args = Resolves (Some r) ->
  isError r = false ->
  Projector.executionId p = executionIdOf env cline ->
  let final := terminalEvent env (executionIdOf env cline) r in
  ReadsBack parseStatus env final ->
  (exists earlier,
     posted (traceOf env cline block)
     = (earlier ++ [statusMessage env final])%list)
  /\ forall before c,
       let st := Projector.state
                   (deliverAll (before ++ [statusMessage env final]) c) in
       Projector.phase st = Projector.PhaseCompleted
       /\ Projector.responseText st = prettyOf env r
       /\ View.showsResponse st = true
       /\ pushed (traceOf env cline block)
          = [ formatResponse_toolResult env (Projector.responseText st) ].
Proof.
  intros A R He Hp final RB. split.
  - unfold traceOf.
    rewrite (OrchestratorFacts.run_result _ _ _ _ _ _ _ A R).
    unfold resultEvents. fold final.
    destruct (Boolean (outputText env r)); eexists; BranchFacts.project;
      [instantiate (1 := [_; _])|instantiate (1 := [_])]; reflexivity.
  - intros before c st. unfold st. rewrite deliverAll_app.
    destruct (step_readsBack final (deliverAll before c) RB (eq_sym Hp))
      as (Hph & _ & Hr).
    assert (Sf : status final = Completed) by (unfold final; simpl; now rewrite He).
    assert (Rf : nonEmpty (response final) = Some (prettyOf env r))
      by (apply nonEmpty_Boolean, BranchFacts.prettyOf_Boolean).
    rewrite Sf in Hph. rewrite Sf, Rf in Hr.
    split; [exact Hph|]. split; [exact Hr|]. split.
    + unfold View.showsResponse. rewrite Hr. apply BranchFacts.prettyOf_Boolean.
    + rewrite Hr. unfold traceOf.
      rewrite (OrchestratorFacts.run_result _ _ _ _ _ _ _ A R).
      now BranchFacts.project.
Qed.

(** X18.  A call that fails shows less than the model is told.  With the
    run's messages delivered in order, the phase is error and the error
    shown is "Error executing MCP tool", but the response text is what it
    was before the run followed by the joined output only: neither the
    "Error:\n" prefix nor the "(No response)" placeholder of the pushed
    tool result reaches the view. *)
Theorem failed_call_shown cline block server tool args r c :
  Approved env block server tool args ->
  remoteOutcome cline server tool args = Resolves (Some r) ->
  isError r = true ->
  Projector.executionId p = executionIdOf env cline ->
  (forall s,
     In s (startedEvent (executionIdOf env cline) server tool
             :: resultEvents env (executionIdOf env cline) r) ->
     ReadsBack parseStatus env s) ->
  let st := Projector.state (deliverAll (posted (traceOf env cline block)) c) in
  Projector.phase st = Projector.PhaseError
  /\ Projector.viewError st = Some "Error executing MCP tool"
  /\ Projector.responseText st
     = Projector.responseText (Projector.state c) ++ outputText env r
  /\ pushed (traceOf env cline block)
     = [ formatResponse_toolResult env
           (if Boolean (outputText env r)
            then "Error:" ++ LF ++ outputText env r
            else "(No response)") ].
Proof.
  intros A R He Hp RB st. unfold st.
  rewrite (OrchestratorFacts.posted_result _ _ _ _ _ _ _ A R).
  assert (T : pushed (traceOf env cline block)
              = [ formatResponse_toolResult env (prettyOf env r) ])
    by (unfold traceOf;
        rewrite (OrchestratorFacts.run_result _ _ _ _ _ _ _ A R);
        now BranchFacts.project).
  rewrite T. unfold prettyOf, errorPrefix. rewrite He.
  set (id := executionIdOf env cline) in *.
  pose proof (RB _ (or_introl eq_refl)) as R0.
  revert RB. unfold resultEvents, terminalEvent. rewrite He.
  destruct (Boolean (outputText env r)) eqn:B; intros RB.
  - pose proof (RB _ (or_intror (or_introl eq_refl))) as R1.
    pose proof (RB _ (or_intror (or_intror (or_introl eq_refl)))) as R2.
    change (map (statusMessage env) [?a; ?b; ?d])
      with ([statusMessage env a] ++ [statusMessage env b]
              ++ [statusMessage env d])%list.
    rewrite !deliverAll_app.
    destruct (step_readsBack _ c R0 (eq_sym Hp)) as (_ & _ & H0).
    destruct (step_readsBack _ (deliverAll [statusMessage env
                                              (startedEvent id server tool)] c)
                R1 (eq_sym Hp)) as (_ & _ & H1).
    match goal with
    | |- context [deliverAll [statusMessage env ?e] ?c'] =>
        destruct (step_readsBack e c' R2 (eq_sym Hp)) as (H2 & H3 & H4)
    end.
    cbn [status response error] in H0, H1, H2, H3, H4.
    rewrite (nonEmpty_Boolean _ B) in H1.
    repeat split; [exact H2|exact H3|].
    rewrite H4, H1, H0. reflexivity.
  - pose proof (RB _ (or_intror (or_introl eq_refl))) as R2.
    change (map (statusMessage env) [?a; ?d])
      with ([statusMessage env a] ++ [statusMessage env d])%list.
    rewrite !deliverAll_app.
    destruct (step_readsBack _ c R0 (eq_sym Hp)) as (_ & _ & H0).
    match goal with
    | |- context [deliverAll [statusMessage env ?e] ?c'] =>
        destruct (step_readsBack e c' R2 (eq_sym Hp)) as (H2 & H3 & H4)
    end.
    cbn [status response error] in H0, H2, H3, H4.
    apply JsFacts.Boolean_false in B.
    repeat split; [exact H2|exact H3|].
    rewrite H4, H0, B. now rewrite JsFacts.append_empty_r.
Qed.

End Channel.

Lemma addressedTo_false parseStatus id message :
  addressedTo parseStatus id message = false ->
  forall data, Projector.Carries parseStatus message data ->
               executionId data <> id.
Proof.
  unfold addressedTo. intros H data [Ht Hp]. rewrite Ht, Hp in H. simpl in H.
  now apply String.eqb_neq.
Qed.

Lemma deliverAll_addressed parseStatus p messages :
  forall c, Projector.rerender c = c ->
  Projector.deliverAll parseStatus p messages c
  = Projector.deliverAll parseStatus p
      (filter (addressedTo parseStatus (Projector.executionId p)) messages) c.
Proof.
  induction messages as [|m messages IH]; intros c F; [reflexivity|].
  simpl filter.
  destruct (addressedTo parseStatus (Projector.executionId p) m) eqn:E.
  - unfold Projector.deliverAll in *. simpl fold_left. apply IH. reflexivity.
  - unfold Projector.deliverAll in *. simpl fold_left.
    assert (D : Projector.deliver parseStatus p m c = c).
    { unfold Projector.deliver.
      rewrite (ViewFacts.onMessage_unless parseStatus _ _ _ _ _ _
                 (addressedTo_false _ _ _ E)).
      now destruct c. }
    rewrite D, F. now apply IH.
Qed.

(** X19.  The view depends only on the messages addressed to it: between
    renders, any interleaving with messages of other kinds, malformed
    texts or events of other executions gives the very component that
    the addressed messages alone, in their order, would give. *)
Theorem view_depends_on_own_messages parseStatus p messages c :
  Projector.deliverAll parseStatus p messages (Projector.rerender c)
  = Projector.deliverAll parseStatus p
      (filter (addressedTo parseStatus (Projector.executionId p)) messages)
      (Projector.rerender c).
Proof. apply deliverAll_addressed. reflexivity. Qed.

End EndToEnd.

(** ** More worked runs *)

Module MoreRuns.
Import Js Schema Orchestrator Branches Wire Fixtures MoreFixtures.

(** A streaming block without server name is echoed, not refused. *)
Lemma partial_run :
  partial partialBlock = true
  /\ truthy (server_name (params partialBlock)) = false
  /\ run (envWith true) (liveTask None) partialBlock
     = (Normal tt, liveTask None,
        [ Ask "use_mcp_server" (partialMessageOf (envWith true) partialBlock)
            true ])
  /\ pushed (traceOf (envWith true) (liveTask None) partialBlock) = [].
Proof.
  destruct (BranchFacts.partial_block_only_echoed
              (envWith true) (liveTask None) partialBlock eq_refl)
    as (R & _ & _ & _ & P).
  split; [reflexivity|]. split; [reflexivity|]. split; [exact R | exact P].
Defined.

Lemma bad_arguments_run :
  nonEmpty (arguments (params badArgumentsBlock)) = Some "{bad"
  /\ JSON_parse (envWith true) "{bad" = None
  /\ approvalsAsked (traceOf (envWith true) (liveTask None) badArgumentsBlock)
     = []
  /\ posted (traceOf (envWith true) (liveTask None) badArgumentsBlock) = []
  /\ remoteCalls (traceOf (envWith true) (liveTask None) badArgumentsBlock) = [].
Proof.
  split; [reflexivity|]. split; [reflexivity|].
  exact (proj2 (BranchFacts.invalid_arguments_reported
                  (envWith true) (liveTask None) badArgumentsBlock
                  "weather" "forecast" "{bad"
                  eq_refl eq_refl eq_refl eq_refl eq_refl)).
Defined.

(** Empty-string arguments under a parser that would reject them. *)
Lemma empty_arguments_run :
  let block :=
    mkToolUse (mkParams (Some "weather") (Some "forecast") (Some EmptyString))
      false in
  truthy (arguments (params block)) = false
  /\ JSON_parse (envWith true) EmptyString = None
  /\ remoteCalls (traceOf (envWith true) (liveTask (Some textAB)) block)
     = [ ("weather", "forecast", None) ].
Proof.
  intros block. split; [reflexivity|]. split; [reflexivity|].
  exact (proj2 (BranchFacts.empty_arguments_not_parsed
                  (envWith true) (liveTask (Some textAB)) block
                  "weather" "forecast" (hubReturning (Some textAB))
                  eq_refl eq_refl eq_refl eq_refl eq_refl eq_refl)).
Defined.

Lemma rejected_run :
  remoteOutcome rejectingTask "weather" "forecast" None = Rejects "timeout"
  /\ fst (fst (run (envWith true) rejectingTask weatherBlock)) = Normal tt
  /\ posted (traceOf (envWith true) rejectingTask weatherBlock)
     = [ statusMessage (envWith true) (startedEvent id0 "weather" "forecast") ]
  /\ handled (traceOf (envWith true) rejectingTask weatherBlock)
     = [ ("executing MCP tool", "timeout") ]
  /\ pushed (traceOf (envWith true) rejectingTask weatherBlock) = [].
Proof.
  destruct (BranchFacts.rejected_call_leaves_stream_open
              (envWith true) rejectingTask weatherBlock
              "weather" "forecast" None "timeout"
              WorkedRuns.weather_approved eq_refl)
    as (N & P & H & _ & _ & U).
  split; [reflexivity|]. split; [exact N|]. split; [exact P|].
  split; [exact H | exact U].
Defined.

Lemma told_run :
  let env := envWith true in
  let cline := liveTask (Some failing) in
  remoteOutcome cline "weather" "forecast" None = Resolves (Some failing)
  /\ toldOf env (Some failing) = "Error:" ++ LF ++ "boom"
  /\ said (traceOf env cline weatherBlock)
     = [ ("mcp_server_request_started", None);
         ("mcp_server_response", Some (toldOf env (Some failing))) ]
  /\ pushed (traceOf env cline weatherBlock)
     = [ formatResponse_toolResult env (toldOf env (Some failing)) ].
Proof.
  intros env cline.
  destruct (BranchFacts.told_is_said_is_posted env cline weatherBlock
              "weather" "forecast" None (Some failing)
              WorkedRuns.weather_approved eq_refl)
    as (_ & S & P & _).
  split; [reflexivity|]. split; [reflexivity|]. split; [exact S | exact P].
Defined.

(** The component for [id0] and an event of another execution. *)
Lemma foreign_event_run :
  let parse := parseFrom [ outputEvent "1700000000999" "theirs" ] in
  let m := wire (outputEvent "1700000000999" "theirs") in
  (exists data,
     parse (or_else (text m) "{}") = Some data /\ executionId data <> id0)
  /\ Projector.onMessage parse id0 false EmptyString "partial" m streamed
     = streamed.
Proof.
  intros parse m.
  assert (H : exists data,
            parse (or_else (text m) "{}") = Some data
            /\ executionId data <> id0)
    by (exists (outputEvent "1700000000999" "theirs");
        split; [reflexivity|discriminate]).
  split; [exact H|].
  exact (ViewFacts.message_ignored_unless_ours parse id0 false EmptyString
           "partial" m streamed (or_intror (or_intror H))).
Defined.

Lemma streaming_header_run :
  let parse := parseFrom knownEvents in
  Projector.Carries parse (wire chunkEvent) chunkEvent
  /\ View.header
       (Projector.onMessage parse id0 false EmptyString "partial"
          (wire chunkEvent) streamed)
     = Some (View.mkHeader None "Error" None None)
  /\ View.header
       (Projector.onMessage parse id0 false EmptyString "partial"
          (wire failedEvent) streamed)
     = Some (View.mkHeader (Some "bg-vscode-errorForeground") "Error"
               (Some "text-vscode-errorForeground")
               (Some "(Error executing MCP tool)")).
Proof.
  intros parse.
  assert (C1 : Projector.Carries parse (wire chunkEvent) chunkEvent)
    by (split; reflexivity).
  assert (C2 : Projector.Carries parse (wire failedEvent) failedEvent)
    by (split; reflexivity).
  split; [exact C1|]. split.
  - exact (proj1 (ViewFacts.header_after_event parse id0 false EmptyString
                    "partial" (wire chunkEvent) chunkEvent streamed
                    C1 eq_refl) eq_refl).
  - exact (proj2 (ViewFacts.header_after_event parse id0 false EmptyString
                    "partial" (wire failedEvent) failedEvent streamed
                    C2 eq_refl) eq_refl "Error executing MCP tool" eq_refl).
Defined.

(** Two tools named "forecast": the first one's mark is shown. *)
Lemma tool_row_run :
  View.toolRows rowProps weatherRest streamed
  = [ View.mkRow "forecast" "Weather forecast" true "weather" (Some "global")
        true ]
  /\ View.toolRows argsProps weatherRest streamed = []
  /\ exists tool,
       View.findTool (View.server weatherRest) (Some "forecast") = Some tool
       /\ View.alwaysAllow tool = Some true.
Proof.
  destruct (ViewFacts.tool_rows_backed rowProps weatherRest streamed)
    as (_ & _ & B).
  destruct (ViewFacts.tool_rows_backed argsProps weatherRest streamed)
    as (_ & A & _).
  split; [reflexivity|]. split; [exact (A eq_refl)|].
  destruct (B _ (or_introl eq_refl) eq_refl)
    as (u & srv & l & tool & Hu & _ & _ & _ & Hn & F & Ha).
  exists tool. injection Hu as <-. split; [exact F | exact Ha].
Defined.

(** Compact JSON is pretty-printed once and stays; plain text stays. *)
Lemma format_run :
  let format := View.formatJsonText safeParseKnown JSON.stringify in
  safeParseKnown "sunny" JNull = JNull
  /\ format "sunny" = "sunny"
  /\ safeParseKnown (JSON.stringify (safeParseKnown cityCompact JNull) 2) JNull
     = safeParseKnown cityCompact JNull
  /\ format cityCompact = JSON.stringify cityDoc 2
  /\ format (format cityCompact) = format cityCompact.
Proof.
  intros format.
  destruct (ViewFacts.formatJsonText_settles safeParseKnown JSON.stringify
              "sunny") as [P _].
  destruct (ViewFacts.formatJsonText_settles safeParseKnown JSON.stringify
              cityCompact) as [_ I].
  split; [reflexivity|]. split; [exact (P eq_refl)|].
  split; [reflexivity|]. split; [reflexivity | exact (I eq_refl)].
Defined.

(** The successful call of [WorkedRuns.text_AB_run], seen from a component
    that missed everything but the terminal message. *)
Lemma completed_shown_run :
  let env := envWith true in
  let cline := liveTask (Some textAB) in
  let final := terminalEvent env id0 textAB in
  let parse := parseFrom [ final ] in
  let st := Projector.state
              (Projector.deliverAll parse rowProps [ statusMessage env final ]
                 (Projector.mount rowProps)) in
  ReadsBack parse env final
  /\ Projector.phase st = Projector.PhaseCompleted
  /\ Projector.responseText st = "A" ++ LF ++ LF ++ "B"
  /\ pushed (traceOf env cline weatherBlock)
     = [ formatResponse_toolResult env (Projector.responseText st) ].
Proof.
  intros env cline final parse st.
  assert (RB : ReadsBack parse env final).
  { exists final. split; [split; reflexivity|].
    repeat split; reflexivity. }
  destruct (EndToEnd.completed_call_shown parse env rowProps cline weatherBlock
              "weather" "forecast" None textAB
              WorkedRuns.weather_approved eq_refl eq_refl eq_refl RB)
    as (_ & H).
  destruct (H [] (Projector.mount rowProps)) as (Hp & Hr & _ & Ht).
  split; [exact RB|]. split; [exact Hp|]. split; [exact Hr | exact Ht].
Defined.

(** The failing call, all of its messages delivered in order. *)
Lemma failed_shown_run :
  let env := envWith true in
  let cline := liveTask (Some failing) in
  let events := startedEvent id0 "weather" "forecast"
                  :: resultEvents env id0 failing in
  let parse := parseFrom events in
  let st := Projector.state
              (Projector.deliverAll parse rowProps
                 (posted (traceOf env cline weatherBlock))
                 (Projector.mkComponent streamed EmptyString "partial")) in
  (forall s, In s events -> ReadsBack parse env s)
  /\ Projector.phase st = Projector.PhaseError
  /\ Projector.viewError st = Some "Error executing MCP tool"
  /\ Projector.responseText st = "partialboom"
  /\ pushed (traceOf env cline weatherBlock)
     = [ formatResponse_toolResult env ("Error:" ++ LF ++ "boom") ].
Proof.
  intros env cline events parse st.
  assert (RB : forall s, In s events -> ReadsBack parse env s).
  { intros s [<-|[<-|[<-|[]]]]; eexists; (split; [split; reflexivity|]);
      repeat split; reflexivity. }
  split; [exact RB|].
  exact (EndToEnd.failed_call_shown parse env rowProps cline weatherBlock
           "weather" "forecast" None failing
           (Projector.mkComponent streamed EmptyString "partial")
           WorkedRuns.weather_approved eq_refl eq_refl eq_refl RB).
Defined.

(** The arguments view, mounted on the compact arguments. *)
Lemma mounted_run :
  let parse := parseFrom knownEvents in
  let st := View.mountEffect safeParseKnown JSON.stringify argsProps bareRest
              (Projector.initialState argsProps) in
  Projector.Carries parse (wire chunkEvent) chunkEvent
  /\ Projector.argumentsText st = JSON.stringify cityDoc 2
  /\ Projector.responseText st = cityCompact
  /\ View.showsResponse st = true
  /\ Projector.responseText
       (Projector.onMessage parse id0 true (Projector.argumentsText st)
          (Projector.responseText st) (wire chunkEvent) st)
     = cityCompact ++ " and more".
Proof.
  intros parse st.
  assert (C : Projector.Carries parse (wire chunkEvent) chunkEvent)
    by (split; reflexivity).
  destruct (ViewFacts.mounted_text_is_response_text safeParseKnown
              JSON.stringify parse argsProps bareRest (wire chunkEvent)
              chunkEvent " and more" C eq_refl eq_refl eq_refl)
    as (R & S & A).
  split; [exact C|]. split; [reflexivity|]. split; [exact R|].
  split; [exact (S eq_refl eq_refl) | exact A].
Defined.

End MoreRuns.
